(** * go-log: a process-wide logging facade over zap and lumberjack

    The repository holds three revisions of one Go package [logger]:

    - [src/unnamed/part_001] : the current facade (one-time [Init], a
      [Mode] in the configuration, three channels, error-aware [Error] and
      [Errorf]);                                        module [Logger001]
    - [src/pkg/logger/go-logger.go] : one-time [Init], two channels with
      threshold filters, no console;                    module [PkgLogger]
    - [src/unnamed/part_000] : plain [Init], two channels;
                                                        module [Logger000]

    zap (go.uber.org/zap v1.25.0, see go.mod) and lumberjack are external
    libraries.  Their part of the behaviour is embedded in the modules
    [zapcore], [zap] and [lumberjack] below, as far as the facade uses it:
    level filtering, the fan-out of [zapcore.NewTee], the calls made on each
    [WriteSyncer], and the terminal action of fatal entries. *)

From Stdlib Require Import ZArith List String Bool Lia.
Import ListNotations.
Local Open Scope Z_scope.

(** ** Go values the facade handles *)

(** A non-nil value of the interface [error]; [Error()] returns its text. *)
Record error_value := errorString { Error_text : string }.

(** The interface type [error]: [None] is [nil]. *)
Definition error := option error_value.

(** A value of [interface{}] as passed in [args ...interface{}]. *)
Inductive any :=
| AnyNil
| AnyError (e : error_value)
| AnyString (s : string)
| AnyInt (z : Z)
| AnyBool (b : bool).

(** The type assertion [arg.(error)]: the value and [ok]. *)
Definition assert_error (arg : any) : option error_value :=
  match arg with
  | AnyError e => Some e
  | _ => None
  end.

(** What the Go runtime and [fmt] supply: [fmt.Sprintf] and the text of the
    calling goroutine's stack trace, of which [runtime.Stack(buf, false)]
    copies as much as fits in [buf].  The trace is that of the call at hand;
    a sequence of calls is taken to be made from one place, so that one text
    serves the whole sequence. *)
Class GoRuntime := {
  fmt_Sprintf : string -> list any -> string;
  goroutine_trace : string
}.

(** [string(buf[:n])] after [n := runtime.Stack(buf, false)] with
    [len(buf) = size]: the first [size] bytes of the trace. *)
Fixpoint take_bytes (size : nat) (s : string) : string :=
  match size, s with
  | S k, String c rest => String c (take_bytes k rest)
  | _, _ => EmptyString
  end.

Definition runtime_Stack `{GoRuntime} (size : nat) : string :=
  take_bytes size goroutine_trace.

(** Why a goroutine panicked. *)
Inductive PanicValue :=
| NilLoggerDereference      (* [l.zap] with [l == nil] *)
| NilErrorDereference       (* [err.Error()] with [err == nil] *)
| LoggedPanic (msg : string).

(** How a call ends: it returns, it panics (nothing in the package
    recovers), or the process exits ([os.Exit]).  Each carries the state
    reached. *)
Inductive Outcome (A : Type) :=
| Returned (a : A)
| Panicked (why : PanicValue) (a : A)
| Exited (code : Z) (a : A).
Arguments Returned {A} a.
Arguments Panicked {A} why a.
Arguments Exited {A} code a.

Definition state_of {A} (o : Outcome A) : A :=
  match o with
  | Returned a | Panicked _ a | Exited _ a => a
  end.

Definition returned {A} (o : Outcome A) : bool :=
  match o with Returned _ => true | _ => false end.

Definition map_outcome {A B} (f : A -> B) (o : Outcome A) : Outcome B :=
  match o with
  | Returned a => Returned (f a)
  | Panicked v a => Panicked v (f a)
  | Exited c a => Exited c (f a)
  end.

(** ** lumberjack *)
Module lumberjack.

(** [lumberjack.Logger], the fields the facade sets. *)
Record Logger := {
  Filename : string;
  MaxSize : Z;        (* megabytes *)
  MaxBackups : Z;
  MaxAge : Z          (* days *)
}.

End lumberjack.

(** ** zapcore *)
Module zapcore.

(** [type Level int8]. *)
Definition Level := Z.
Definition DebugLevel : Level := -1.
Definition InfoLevel : Level := 0.
Definition WarnLevel : Level := 1.
Definition ErrorLevel : Level := 2.
Definition DPanicLevel : Level := 3.
Definition PanicLevel : Level := 4.
Definition FatalLevel : Level := 5.

Inductive FieldType := StringType.

Record Field := {
  Key : string;
  Type_ : FieldType;
  String_ : string
}.

(** [LevelEnabler]: a [Level] is one ([lvl >= l]), and so is a
    [zap.LevelEnablerFunc]. *)
Inductive LevelEnabler :=
| LevelEnablerFunc (f : Level -> bool)
| AtLevel (l : Level).

Definition Enabled (e : LevelEnabler) (lvl : Level) : bool :=
  match e with
  | LevelEnablerFunc f => f lvl
  | AtLevel l => lvl >=? l
  end.

Inductive LevelEncoder := LowercaseLevelEncoder | CapitalLevelEncoder.
Inductive TimeEncoder :=
| EpochTimeEncoder
| ISO8601TimeEncoder
| beijingTimeEncoder.   (* the package's own encoder, Asia/Shanghai *)
Inductive DurationEncoder := SecondsDurationEncoder | StringDurationEncoder.
Inductive CallerEncoder := ShortCallerEncoder.

Record EncoderConfig := {
  MessageKey : string;
  LevelKey : string;
  TimeKey : string;
  NameKey : string;
  CallerKey : string;
  FunctionKey : string;
  StacktraceKey : string;
  LineEnding : string;
  EncodeLevel : LevelEncoder;
  EncodeTime : TimeEncoder;
  EncodeDuration : DurationEncoder;
  EncodeCaller : CallerEncoder
}.

(** [encoderConfig.EncodeTime = f]. *)
Definition set_EncodeTime (f : TimeEncoder) (c : EncoderConfig) : EncoderConfig :=
  {| MessageKey := MessageKey c; LevelKey := LevelKey c; TimeKey := TimeKey c;
     NameKey := NameKey c; CallerKey := CallerKey c; FunctionKey := FunctionKey c;
     StacktraceKey := StacktraceKey c; LineEnding := LineEnding c;
     EncodeLevel := EncodeLevel c; EncodeTime := f;
     EncodeDuration := EncodeDuration c; EncodeCaller := EncodeCaller c |}.

Inductive Encoder :=
| NewJSONEncoder (cfg : EncoderConfig)
| NewConsoleEncoder (cfg : EncoderConfig).

(** [Entry]: the level and the message (the facade sets no logger name,
    caller or stack; the time comes from the system clock). *)
Record Entry := {
  Entry_Level : Level;
  Entry_Message : string
}.

(** The destinations a [WriteSyncer] of this package writes to, named as
    the variables of [NewLogger]. *)
Inductive Handle := infoLogWriter | errorLogWriter | Stdout.

(** [zapcore.AddSync(w)]: the destination and, for a file, its rotating
    writer. *)
Record WriteSyncer := {
  target : Handle;
  rotation : option lumberjack.Logger
}.

(** What an encoder is given for one entry; the encoder serialises it
    without dropping or merging fields. *)
Record Line := {
  Line_enc : Encoder;
  Line_ent : Entry;
  Line_fields : list Field
}.

(** A call received by a [WriteSyncer]. *)
Inductive WEvent :=
| Wrote (l : Line)
| Synced.

(** The calls each destination has received, oldest first. *)
Record World := {
  info_file : list WEvent;
  error_file : list WEvent;
  stdout : list WEvent
}.

Definition empty_world : World :=
  {| info_file := []; error_file := []; stdout := [] |}.

Definition output (w : World) (h : Handle) : list WEvent :=
  match h with
  | infoLogWriter => info_file w
  | errorLogWriter => error_file w
  | Stdout => stdout w
  end.

Definition emit (h : Handle) (e : WEvent) (w : World) : World :=
  match h with
  | infoLogWriter =>
      {| info_file := info_file w ++ [e]; error_file := error_file w; stdout := stdout w |}
  | errorLogWriter =>
      {| info_file := info_file w; error_file := error_file w ++ [e]; stdout := stdout w |}
  | Stdout =>
      {| info_file := info_file w; error_file := error_file w; stdout := stdout w ++ [e] |}
  end.

Definition Handle_eqb (a b : Handle) : bool :=
  match a, b with
  | infoLogWriter, infoLogWriter | errorLogWriter, errorLogWriter | Stdout, Stdout => true
  | _, _ => false
  end.

(** [ioCore], built by [zapcore.NewCore(enc, ws, enab)]. *)
Record ioCore := NewCore {
  enc : Encoder;
  out : WriteSyncer;
  enab : LevelEnabler
}.

(** [Core]: what [NewTee] returns. *)
Inductive Core :=
| NopCore
| SingleCore (c : ioCore)
| multiCore (cs : list ioCore).

Definition NewTee (cores : list ioCore) : Core :=
  match cores with
  | [] => NopCore
  | [c] => SingleCore c
  | _ => multiCore cores
  end.

Definition cores_of (c : Core) : list ioCore :=
  match c with
  | NopCore => []
  | SingleCore k => [k]
  | multiCore cs => cs
  end.

(** [Core.Enabled]: some member is enabled. *)
Definition Core_Enabled (c : Core) (lvl : Level) : bool :=
  existsb (fun k => Enabled (enab k) lvl) (cores_of c).

(** [Core.Check]: every member whose enabler accepts the entry's level
    adds itself to the checked entry. *)
Definition Core_Check (c : Core) (ent : Entry) : list ioCore :=
  filter (fun k => Enabled (enab k) (Entry_Level ent)) (cores_of c).

(** [ioCore.Write]: encode, write, and sync when the level is above
    [ErrorLevel]. *)
Definition ioCore_Write (c : ioCore) (ent : Entry) (fields : list Field)
           (w : World) : World :=
  let h := target (out c) in
  let w1 := emit h (Wrote {| Line_enc := enc c; Line_ent := ent; Line_fields := fields |}) w in
  if Entry_Level ent >? ErrorLevel then emit h Synced w1 else w1.

(** [Core.Sync]: every member syncs its output. *)
Definition Core_Sync (c : Core) (w : World) : World :=
  fold_left (fun acc k => emit (target (out k)) Synced acc) (cores_of c) w.

Inductive CheckWriteAction := WriteThenNoop | WriteThenPanic | WriteThenFatal.

Record CheckedEntry := {
  ce_ent : Entry;
  ce_cores : list ioCore;
  ce_after : CheckWriteAction
}.

(** [CheckedEntry.Write]: each registered core writes, then the terminal
    action runs. *)
Definition CheckedEntry_Write (ce : CheckedEntry) (fields : list Field)
           (w : World) : Outcome World :=
  let w' := fold_left (fun acc c => ioCore_Write c (ce_ent ce) fields acc) (ce_cores ce) w in
  match ce_after ce with
  | WriteThenNoop => Returned w'
  | WriteThenPanic => Panicked (LoggedPanic (Entry_Message (ce_ent ce))) w'
  | WriteThenFatal => Exited 1 w'
  end.

End zapcore.

(** ** zap *)
Module zap.
Import zapcore.

Definition NewProductionEncoderConfig : EncoderConfig :=
  {| MessageKey := "msg"; LevelKey := "level"; TimeKey := "ts";
     NameKey := "logger"; CallerKey := "caller"; FunctionKey := "";
     StacktraceKey := "stacktrace"; LineEnding := String (Ascii.ascii_of_nat 10) "";
     EncodeLevel := LowercaseLevelEncoder; EncodeTime := EpochTimeEncoder;
     EncodeDuration := SecondsDurationEncoder; EncodeCaller := ShortCallerEncoder |}.

Definition NewDevelopmentEncoderConfig : EncoderConfig :=
  {| MessageKey := "M"; LevelKey := "L"; TimeKey := "T";
     NameKey := "N"; CallerKey := "C"; FunctionKey := "";
     StacktraceKey := "S"; LineEnding := String (Ascii.ascii_of_nat 10) "";
     EncodeLevel := CapitalLevelEncoder; EncodeTime := ISO8601TimeEncoder;
     EncodeDuration := StringDurationEncoder; EncodeCaller := ShortCallerEncoder |}.

(** [zap.String(key, val)]. *)
Definition String (key val : string) : Field :=
  {| Key := key; Type_ := StringType; String_ := val |}.

(** [zap.Logger] as built by [zap.New(core)]: no options, so no caller
    or stack annotation and the default fatal hook. *)
Record Logger := New { core : Core }.

(** [Logger.check]: a disabled level below [DPanicLevel] is dropped at
    once; otherwise the cores are asked, and panic and fatal entries get
    their terminal action even when no core takes them. *)
Definition check (log : Logger) (lvl : Level) (msg : string) : option CheckedEntry :=
  if (lvl <? DPanicLevel) && negb (Core_Enabled (core log) lvl) then None
  else
    let ent := {| Entry_Level := lvl; Entry_Message := msg |} in
    let cs := Core_Check (core log) ent in
    if lvl =? PanicLevel then
      Some {| ce_ent := ent; ce_cores := cs; ce_after := WriteThenPanic |}
    else if lvl =? FatalLevel then
      Some {| ce_ent := ent; ce_cores := cs; ce_after := WriteThenFatal |}
    else
      match cs with
      | [] => None
      | _ => Some {| ce_ent := ent; ce_cores := cs; ce_after := WriteThenNoop |}
      end.

(** [Logger.Log(lvl, msg, fields...)], the body shared by the levelled
    methods. *)
Definition Log (log : Logger) (lvl : Level) (msg : string) (fields : list Field)
           (w : World) : Outcome World :=
  match check log lvl msg with
  | Some ce => CheckedEntry_Write ce fields w
  | None => Returned w
  end.

Definition Debug (log : Logger) := Log log DebugLevel.
Definition Info (log : Logger) := Log log InfoLevel.
Definition Warn (log : Logger) := Log log WarnLevel.
Definition Error (log : Logger) := Log log ErrorLevel.
Definition Fatal (log : Logger) := Log log FatalLevel.

(** [Logger.Sync]. *)
Definition Sync (log : Logger) (w : World) : World :=
  Core_Sync (core log) w.

End zap.

(** ** The facade of [src/unnamed/part_001] *)
Module Logger001.
Import zapcore.

Record Logger := { zap : zap.Logger }.

(** A [*Config] that is not nil. *)
Record Config := {
  InfoLogPath : string;
  ErrorLogPath : string;
  Mode : string
}.

(** The package variables [logInstance] ([None] is nil) and [once], the
    destinations, and a count of the [Logger] values built so far. *)
Record State := {
  logInstance : option Logger;
  once : bool;
  constructed : nat;
  world : World
}.

Definition initial (w : World) : State :=
  {| logInstance := None; once := false; constructed := 0; world := w |}.

Definition with_world (s : State) (w : World) : State :=
  {| logInstance := logInstance s; once := once s;
     constructed := constructed s; world := w |}.

(** [zapErrorWithStack]: [None] when [err.Error()] is called on nil. *)
Definition zapErrorWithStack `{GoRuntime} (err : error) : option (Field * Field) :=
  let stack := runtime_Stack 1024 in
  match err with
  | None => None
  | Some e => Some (zap.String "error" (Error_text e), zap.String "stacktrace" stack)
  end.

Definition getEncoderConfig (config : Config) : EncoderConfig :=
  let logMode := Mode config in
  if String.eqb logMode "prod" then zap.NewProductionEncoderConfig
  else zap.NewDevelopmentEncoderConfig.

Definition infoLogWriter_of (config : Config) : lumberjack.Logger :=
  {| lumberjack.Filename := InfoLogPath config;
     lumberjack.MaxSize := 500;
     lumberjack.MaxBackups := 3;
     lumberjack.MaxAge := 28 |}.

Definition errorLogWriter_of (config : Config) : lumberjack.Logger :=
  {| lumberjack.Filename := ErrorLogPath config;
     lumberjack.MaxSize := 500;
     lumberjack.MaxBackups := 3;
     lumberjack.MaxAge := 28 |}.

Definition encoderConfig : EncoderConfig :=
  set_EncodeTime beijingTimeEncoder zap.NewProductionEncoderConfig.

Definition infoCore (config : Config) : ioCore :=
  NewCore (NewJSONEncoder encoderConfig)
          {| target := infoLogWriter; rotation := Some (infoLogWriter_of config) |}
          (LevelEnablerFunc (fun lvl => (lvl >=? DebugLevel) && (lvl <=? WarnLevel))).

Definition errorCore (config : Config) : ioCore :=
  NewCore (NewJSONEncoder encoderConfig)
          {| target := errorLogWriter; rotation := Some (errorLogWriter_of config) |}
          (LevelEnablerFunc (fun lvl => lvl >=? ErrorLevel)).

Definition consoleCore (config : Config) : ioCore :=
  NewCore (NewConsoleEncoder (getEncoderConfig config))
          {| target := Stdout; rotation := None |}
          (AtLevel DebugLevel).

Definition NewLogger (config : Config) : Logger :=
  let core := NewTee [infoCore config; errorCore config; consoleCore config] in
  let zlog := zap.New core in
  {| zap := zlog |}.

(** [once.Do(func() { logInstance = NewLogger(config) })]. *)
Definition Init (config : Config) (s : State) : State :=
  if once s then s
  else {| logInstance := Some (NewLogger config); once := true;
          constructed := S (constructed s); world := world s |}.

(** *** Methods of [*Logger]; the receiver may be nil *)

Definition Logger_Info (l : option Logger) (msg : string) (tags : list Field)
           (w : World) : Outcome World :=
  match l with
  | None => Panicked NilLoggerDereference w
  | Some l => zap.Info (zap l) msg tags w
  end.

Definition Logger_Error `{GoRuntime} (l : option Logger) (msg : string) (err : error)
           (tags : list Field) (w : World) : Outcome World :=
  match zapErrorWithStack err, err with
  | Some (errMsg, errStack), Some e =>
      let allFields := tags ++ [zap.String "error" (Error_text e); errMsg; errStack] in
      match l with
      | None => Panicked NilLoggerDereference w
      | Some l => zap.Error (zap l) msg allFields w
      end
  | _, _ => Panicked NilErrorDereference w
  end.

Definition Logger_Debug (l : option Logger) (msg : string) (tags : list Field)
           (w : World) : Outcome World :=
  match l with
  | None => Panicked NilLoggerDereference w
  | Some l => zap.Debug (zap l) msg tags w
  end.

Definition Logger_Warn (l : option Logger) (msg : string) (tags : list Field)
           (w : World) : Outcome World :=
  match l with
  | None => Panicked NilLoggerDereference w
  | Some l => zap.Warn (zap l) msg tags w
  end.

Definition Logger_Fatal (l : option Logger) (msg : string) (tags : list Field)
           (w : World) : Outcome World :=
  match l with
  | None => Panicked NilLoggerDereference w
  | Some l => zap.Fatal (zap l) msg tags w
  end.

Definition Logger_Infof `{GoRuntime} (l : option Logger) (msg : string) (args : list any)
           (w : World) : Outcome World :=
  let rendered := fmt_Sprintf msg args in
  match l with
  | None => Panicked NilLoggerDereference w
  | Some l => zap.Info (zap l) rendered [] w
  end.

(** The loop of [Errorf]: the first argument that is an [error]. *)
Fixpoint first_error (args : list any) : option error_value :=
  match args with
  | [] => None
  | arg :: rest =>
      match assert_error arg with
      | Some e => Some e
      | None => first_error rest
      end
  end.

Definition Logger_Errorf `{GoRuntime} (l : option Logger) (format : string)
           (args : list any) (w : World) : Outcome World :=
  let msg := fmt_Sprintf format args in
  let stackErr := first_error args in
  match stackErr with
  | Some e =>
      match zapErrorWithStack (Some e) with
      | Some (errMsg, errStack) =>
          match l with
          | None => Panicked NilLoggerDereference w
          | Some l => zap.Error (zap l) msg [errMsg; errStack] w
          end
      | None => Panicked NilErrorDereference w
      end
  | None =>
      match l with
      | None => Panicked NilLoggerDereference w
      | Some l => zap.Error (zap l) msg [] w
      end
  end.

Definition Logger_Debugf `{GoRuntime} (l : option Logger) (msg : string) (args : list any)
           (w : World) : Outcome World :=
  let rendered := fmt_Sprintf msg args in
  match l with
  | None => Panicked NilLoggerDereference w
  | Some l => zap.Debug (zap l) rendered [] w
  end.

Definition Logger_Warnf `{GoRuntime} (l : option Logger) (msg : string) (args : list any)
           (w : World) : Outcome World :=
  let rendered := fmt_Sprintf msg args in
  match l with
  | None => Panicked NilLoggerDereference w
  | Some l => zap.Warn (zap l) rendered [] w
  end.

Definition Logger_Fatalf `{GoRuntime} (l : option Logger) (msg : string) (args : list any)
           (w : World) : Outcome World :=
  let rendered := fmt_Sprintf msg args in
  match l with
  | None => Panicked NilLoggerDereference w
  | Some l => zap.Fatal (zap l) rendered [] w
  end.

(** *** Package functions, on the package state *)

Definition on_world (s : State) (o : Outcome World) : Outcome State :=
  map_outcome (with_world s) o.

Definition Info (msg : string) (tags : list Field) (s : State) : Outcome State :=
  on_world s (Logger_Info (logInstance s) msg tags (world s)).

Definition Error `{GoRuntime} (msg : string) (err : error) (tags : list Field)
           (s : State) : Outcome State :=
  on_world s (Logger_Error (logInstance s) msg err tags (world s)).

Definition Debug (msg : string) (tags : list Field) (s : State) : Outcome State :=
  on_world s (Logger_Debug (logInstance s) msg tags (world s)).

Definition Warn (msg : string) (tags : list Field) (s : State) : Outcome State :=
  on_world s (Logger_Warn (logInstance s) msg tags (world s)).

Definition Fatal (msg : string) (tags : list Field) (s : State) : Outcome State :=
  on_world s (Logger_Fatal (logInstance s) msg tags (world s)).

Definition Infof `{GoRuntime} (msg : string) (args : list any) (s : State) : Outcome State :=
  on_world s (Logger_Info (logInstance s) (fmt_Sprintf msg args) [] (world s)).

Definition Errorf `{GoRuntime} (format : string) (args : list any) (s : State) : Outcome State :=
  on_world s (Logger_Errorf (logInstance s) format args (world s)).

Definition Debugf `{GoRuntime} (msg : string) (args : list any) (s : State) : Outcome State :=
  on_world s (Logger_Debug (logInstance s) (fmt_Sprintf msg args) [] (world s)).

Definition Warnf `{GoRuntime} (msg : string) (args : list any) (s : State) : Outcome State :=
  on_world s (Logger_Warn (logInstance s) (fmt_Sprintf msg args) [] (world s)).

Definition Fatalf `{GoRuntime} (msg : string) (args : list any) (s : State) : Outcome State :=
  on_world s (Logger_Fatal (logInstance s) (fmt_Sprintf msg args) [] (world s)).

Definition GetInstance (s : State) : option Logger := logInstance s.

(** [logInstance.zap.Sync()]. *)
Definition Cleanup (s : State) : Outcome State :=
  match logInstance s with
  | None => Panicked NilLoggerDereference s
  | Some l => Returned (with_world s (zap.Sync (zap l) (world s)))
  end.

(** A call of a package function. *)
Inductive Call :=
| CallInit (config : Config)
| CallInfo (msg : string) (tags : list Field)
| CallError (msg : string) (err : error) (tags : list Field)
| CallDebug (msg : string) (tags : list Field)
| CallWarn (msg : string) (tags : list Field)
| CallFatal (msg : string) (tags : list Field)
| CallInfof (msg : string) (args : list any)
| CallErrorf (format : string) (args : list any)
| CallDebugf (msg : string) (args : list any)
| CallWarnf (msg : string) (args : list any)
| CallFatalf (msg : string) (args : list any)
| CallGetInstance
| CallCleanup.

Definition exec `{GoRuntime} (c : Call) (s : State) : Outcome State :=
  match c with
  | CallInit config => Returned (Init config s)
  | CallInfo msg tags => Info msg tags s
  | CallError msg err tags => Error msg err tags s
  | CallDebug msg tags => Debug msg tags s
  | CallWarn msg tags => Warn msg tags s
  | CallFatal msg tags => Fatal msg tags s
  | CallInfof msg args => Infof msg args s
  | CallErrorf format args => Errorf format args s
  | CallDebugf msg args => Debugf msg args s
  | CallWarnf msg args => Warnf msg args s
  | CallFatalf msg args => Fatalf msg args s
  | CallGetInstance => Returned s
  | CallCleanup => Cleanup s
  end.

(** A sequence of calls; a panic or an exit ends it. *)
Fixpoint run `{GoRuntime} (cs : list Call) (s : State) : Outcome State :=
  match cs with
  | [] => Returned s
  | c :: rest =>
      match exec c s with
      | Returned s' => run rest s'
      | stopped => stopped
      end
  end.

End Logger001.


(** ** The facade of [src/pkg/logger/go-logger.go] *)
Module PkgLogger.
Import zapcore.

Record Logger := { zap : zap.Logger }.

(** A [*Config] that is not nil. *)
Record Config := {
  InfoLogPath : string;
  ErrorLogPath : string
}.

Record State := {
  logInstance : option Logger;
  once : bool;
  constructed : nat;
  world : World
}.

Definition initial (w : World) : State :=
  {| logInstance := None; once := false; constructed := 0; world := w |}.

Definition with_world (s : State) (w : World) : State :=
  {| logInstance := logInstance s; once := once s;
     constructed := constructed s; world := w |}.

Definition infoLogWriter_of (config : Config) : lumberjack.Logger :=
  {| lumberjack.Filename := InfoLogPath config;
     lumberjack.MaxSize := 500;
     lumberjack.MaxBackups := 3;
     lumberjack.MaxAge := 28 |}.

Definition errorLogWriter_of (config : Config) : lumberjack.Logger :=
  {| lumberjack.Filename := ErrorLogPath config;
     lumberjack.MaxSize := 500;
     lumberjack.MaxBackups := 3;
     lumberjack.MaxAge := 28 |}.

Definition encoderConfig : EncoderConfig :=
  set_EncodeTime beijingTimeEncoder zap.NewProductionEncoderConfig.

Definition infoCore (config : Config) : ioCore :=
  NewCore (NewJSONEncoder encoderConfig)
          {| target := infoLogWriter; rotation := Some (infoLogWriter_of config) |}
          (AtLevel InfoLevel).

Definition errorCore (config : Config) : ioCore :=
  NewCore (NewJSONEncoder encoderConfig)
          {| target := errorLogWriter; rotation := Some (errorLogWriter_of config) |}
          (AtLevel ErrorLevel).

Definition NewLogger (config : Config) : Logger :=
  let core := NewTee [infoCore config; errorCore config] in
  let zlog := zap.New core in
  {| zap := zlog |}.

(** [once.Do(func() { logInstance = NewLogger(config) })]. *)
Definition Init (config : Config) (s : State) : State :=
  if once s then s
  else {| logInstance := Some (NewLogger config); once := true;
          constructed := S (constructed s); world := world s |}.

Definition Logger_Info (l : option Logger) (msg : string) (tags : list Field)
           (w : World) : Outcome World :=
  match l with
  | None => Panicked NilLoggerDereference w
  | Some l => zap.Info (zap l) msg tags w
  end.

Definition Logger_Error (l : option Logger) (msg : string) (tags : list Field)
           (w : World) : Outcome World :=
  match l with
  | None => Panicked NilLoggerDereference w
  | Some l => zap.Error (zap l) msg tags w
  end.

Definition Logger_Debug (l : option Logger) (msg : string) (tags : list Field)
           (w : World) : Outcome World :=
  match l with
  | None => Panicked NilLoggerDereference w
  | Some l => zap.Debug (zap l) msg tags w
  end.

Definition Logger_Warn (l : option Logger) (msg : string) (tags : list Field)
           (w : World) : Outcome World :=
  match l with
  | None => Panicked NilLoggerDereference w
  | Some l => zap.Warn (zap l) msg tags w
  end.

Definition Logger_Fatal (l : option Logger) (msg : string) (tags : list Field)
           (w : World) : Outcome World :=
  match l with
  | None => Panicked NilLoggerDereference w
  | Some l => zap.Fatal (zap l) msg tags w
  end.

Definition Logger_Infof `{GoRuntime} (l : option Logger) (msg : string) (args : list any)
           (w : World) : Outcome World :=
  let rendered := fmt_Sprintf msg args in
  match l with
  | None => Panicked NilLoggerDereference w
  | Some l => zap.Info (zap l) rendered [] w
  end.

Definition Logger_Errorf `{GoRuntime} (l : option Logger) (msg : string) (args : list any)
           (w : World) : Outcome World :=
  let rendered := fmt_Sprintf msg args in
  match l with
  | None => Panicked NilLoggerDereference w
  | Some l => zap.Error (zap l) rendered [] w
  end.

Definition Logger_Debugf `{GoRuntime} (l : option Logger) (msg : string) (args : list any)
           (w : World) : Outcome World :=
  let rendered := fmt_Sprintf msg args in
  match l with
  | None => Panicked NilLoggerDereference w
  | Some l => zap.Debug (zap l) rendered [] w
  end.

Definition Logger_Warnf `{GoRuntime} (l : option Logger) (msg : string) (args : list any)
           (w : World) : Outcome World :=
  let rendered := fmt_Sprintf msg args in
  match l with
  | None => Panicked NilLoggerDereference w
  | Some l => zap.Warn (zap l) rendered [] w
  end.

Definition Logger_Fatalf `{GoRuntime} (l : option Logger) (msg : string) (args : list any)
           (w : World) : Outcome World :=
  let rendered := fmt_Sprintf msg args in
  match l with
  | None => Panicked NilLoggerDereference w
  | Some l => zap.Fatal (zap l) rendered [] w
  end.

Definition on_world (s : State) (o : Outcome World) : Outcome State :=
  map_outcome (with_world s) o.

Definition Info (msg : string) (tags : list Field) (s : State) : Outcome State :=
  on_world s (Logger_Info (logInstance s) msg tags (world s)).

Definition Error (msg : string) (tags : list Field) (s : State) : Outcome State :=
  on_world s (Logger_Error (logInstance s) msg tags (world s)).

Definition Debug (msg : string) (tags : list Field) (s : State) : Outcome State :=
  on_world s (Logger_Debug (logInstance s) msg tags (world s)).

Definition Warn (msg : string) (tags : list Field) (s : State) : Outcome State :=
  on_world s (Logger_Warn (logInstance s) msg tags (world s)).

Definition Fatal (msg : string) (tags : list Field) (s : State) : Outcome State :=
  on_world s (Logger_Fatal (logInstance s) msg tags (world s)).

Definition Infof `{GoRuntime} (msg : string) (args : list any) (s : State) : Outcome State :=
  on_world s (Logger_Info (logInstance s) (fmt_Sprintf msg args) [] (world s)).

Definition Errorf `{GoRuntime} (msg : string) (args : list any) (s : State) : Outcome State :=
  on_world s (Logger_Error (logInstance s) (fmt_Sprintf msg args) [] (world s)).

Definition Debugf `{GoRuntime} (msg : string) (args : list any) (s : State) : Outcome State :=
  on_world s (Logger_Debug (logInstance s) (fmt_Sprintf msg args) [] (world s)).

Definition Warnf `{GoRuntime} (msg : string) (args : list any) (s : State) : Outcome State :=
  on_world s (Logger_Warn (logInstance s) (fmt_Sprintf msg args) [] (world s)).

Definition Fatalf `{GoRuntime} (msg : string) (args : list any) (s : State) : Outcome State :=
  on_world s (Logger_Fatal (logInstance s) (fmt_Sprintf msg args) [] (world s)).

(** [logInstance.zap.Sync()]. *)
Definition Cleanup (s : State) : Outcome State :=
  match logInstance s with
  | None => Panicked NilLoggerDereference s
  | Some l => Returned (with_world s (zap.Sync (zap l) (world s)))
  end.

Inductive Call :=
| CallInit (config : Config)
| CallInfo (msg : string) (tags : list Field)
| CallError (msg : string) (tags : list Field)
| CallDebug (msg : string) (tags : list Field)
| CallWarn (msg : string) (tags : list Field)
| CallFatal (msg : string) (tags : list Field)
| CallInfof (msg : string) (args : list any)
| CallErrorf (msg : string) (args : list any)
| CallDebugf (msg : string) (args : list any)
| CallWarnf (msg : string) (args : list any)
| CallFatalf (msg : string) (args : list any)
| CallCleanup.

Definition exec `{GoRuntime} (c : Call) (s : State) : Outcome State :=
  match c with
  | CallInit config => Returned (Init config s)
  | CallInfo msg tags => Info msg tags s
  | CallError msg tags => Error msg tags s
  | CallDebug msg tags => Debug msg tags s
  | CallWarn msg tags => Warn msg tags s
  | CallFatal msg tags => Fatal msg tags s
  | CallInfof msg args => Infof msg args s
  | CallErrorf msg args => Errorf msg args s
  | CallDebugf msg args => Debugf msg args s
  | CallWarnf msg args => Warnf msg args s
  | CallFatalf msg args => Fatalf msg args s
  | CallCleanup => Cleanup s
  end.

Fixpoint run `{GoRuntime} (cs : list Call) (s : State) : Outcome State :=
  match cs with
  | [] => Returned s
  | c :: rest =>
      match exec c s with
      | Returned s' => run rest s'
      | stopped => stopped
      end
  end.

End PkgLogger.

(** ** The facade of [src/unnamed/part_000] *)
Module Logger000.
Import zapcore.

Record Logger := { zap : zap.Logger }.

(** A [*Config] that is not nil. *)
Record Config := {
  InfoLogPath : string;
  ErrorLogPath : string
}.

(** The package variable [logInstance], the destinations, and a count of
    the [Logger] values built so far. *)
Record State := {
  logInstance : option Logger;
  constructed : nat;
  world : World
}.

Definition initial (w : World) : State :=
  {| logInstance := None; constructed := 0; world := w |}.

Definition with_world (s : State) (w : World) : State :=
  {| logInstance := logInstance s; constructed := constructed s; world := w |}.

Definition infoLogWriter_of (config : Config) : lumberjack.Logger :=
  {| lumberjack.Filename := InfoLogPath config;
     lumberjack.MaxSize := 500;
     lumberjack.MaxBackups := 3;
     lumberjack.MaxAge := 28 |}.

Definition errorLogWriter_of (config : Config) : lumberjack.Logger :=
  {| lumberjack.Filename := ErrorLogPath config;
     lumberjack.MaxSize := 500;
     lumberjack.MaxBackups := 3;
     lumberjack.MaxAge := 28 |}.

Definition infoCore (config : Config) : ioCore :=
  NewCore (NewJSONEncoder zap.NewProductionEncoderConfig)
          {| target := infoLogWriter; rotation := Some (infoLogWriter_of config) |}
          (AtLevel InfoLevel).

Definition errorCore (config : Config) : ioCore :=
  NewCore (NewJSONEncoder zap.NewProductionEncoderConfig)
          {| target := errorLogWriter; rotation := Some (errorLogWriter_of config) |}
          (AtLevel ErrorLevel).

Definition NewLogger (config : Config) : Logger :=
  let core := NewTee [infoCore config; errorCore config] in
  let zlog := zap.New core in
  {| zap := zlog |}.

(** [logInstance = NewLogger(config)]. *)
Definition Init (config : Config) (s : State) : State :=
  {| logInstance := Some (NewLogger config);
     constructed := S (constructed s); world := world s |}.

Definition Logger_Info (l : option Logger) (msg : string) (tags : list Field)
           (w : World) : Outcome World :=
  match l with
  | None => Panicked NilLoggerDereference w
  | Some l => zap.Info (zap l) msg tags w
  end.

Definition Logger_Error (l : option Logger) (msg : string) (tags : list Field)
           (w : World) : Outcome World :=
  match l with
  | None => Panicked NilLoggerDereference w
  | Some l => zap.Error (zap l) msg tags w
  end.

Definition Logger_Debug (l : option Logger) (msg : string) (tags : list Field)
           (w : World) : Outcome World :=
  match l with
  | None => Panicked NilLoggerDereference w
  | Some l => zap.Debug (zap l) msg tags w
  end.

Definition Logger_Warn (l : option Logger) (msg : string) (tags : list Field)
           (w : World) : Outcome World :=
  match l with
  | None => Panicked NilLoggerDereference w
  | Some l => zap.Warn (zap l) msg tags w
  end.

Definition Logger_Fatal (l : option Logger) (msg : string) (tags : list Field)
           (w : World) : Outcome World :=
  match l with
  | None => Panicked NilLoggerDereference w
  | Some l => zap.Fatal (zap l) msg tags w
  end.

Definition on_world (s : State) (o : Outcome World) : Outcome State :=
  map_outcome (with_world s) o.

Definition Info (msg : string) (tags : list Field) (s : State) : Outcome State :=
  on_world s (Logger_Info (logInstance s) msg tags (world s)).

Definition Error (msg : string) (tags : list Field) (s : State) : Outcome State :=
  on_world s (Logger_Error (logInstance s) msg tags (world s)).

Definition Debug (msg : string) (tags : list Field) (s : State) : Outcome State :=
  on_world s (Logger_Debug (logInstance s) msg tags (world s)).

Definition Warn (msg : string) (tags : list Field) (s : State) : Outcome State :=
  on_world s (Logger_Warn (logInstance s) msg tags (world s)).

Definition Fatal (msg : string) (tags : list Field) (s : State) : Outcome State :=
  on_world s (Logger_Fatal (logInstance s) msg tags (world s)).

(** [logInstance.zap.Sync()]. *)
Definition Cleanup (s : State) : Outcome State :=
  match logInstance s with
  | None => Panicked NilLoggerDereference s
  | Some l => Returned (with_world s (zap.Sync (zap l) (world s)))
  end.

End Logger000.


(** ** What the destinations observe *)
Module Observe.
Import zapcore.

(** The entry a call of [zap.Log] builds. *)
Definition entry_of (lvl : Level) (msg : string) : Entry :=
  {| Entry_Level := lvl; Entry_Message := msg |}.

(** What one core hands to destination [h] for an entry: its line, and a
    sync when the level is above [ErrorLevel]. *)
Definition core_events (ent : Entry) (fields : list Field) (h : Handle)
           (c : ioCore) : list WEvent :=
  if Handle_eqb (target (out c)) h then
    Wrote {| Line_enc := enc c; Line_ent := ent; Line_fields := fields |}
      :: (if Entry_Level ent >? ErrorLevel then [Synced] else [])
  else [].

(** What a channel with filter [accepts] and encoder [e] receives for one
    record. *)
Definition delivered (accepts : Level -> bool) (e : Encoder) (lvl : Level)
           (msg : string) (fields : list Field) : list WEvent :=
  if accepts lvl then
    Wrote {| Line_enc := e; Line_ent := entry_of lvl msg; Line_fields := fields |}
      :: (if lvl >? ErrorLevel then [Synced] else [])
  else [].

(** The three channels as the specification words them: the informational
    file takes debug through warn, the error file error and above, the
    console debug and above. *)
Definition channel_accepts (h : Handle) (lvl : Level) : bool :=
  match h with
  | infoLogWriter => (DebugLevel <=? lvl) && (lvl <=? WarnLevel)
  | errorLogWriter => ErrorLevel <=? lvl
  | Stdout => DebugLevel <=? lvl
  end.

(** The two threshold channels of the older revisions: the informational
    file takes info and above, the error file error and above, and there is
    no console. *)
Definition threshold_accepts (h : Handle) (lvl : Level) : bool :=
  match h with
  | infoLogWriter => InfoLevel <=? lvl
  | errorLogWriter => ErrorLevel <=? lvl
  | Stdout => false
  end.

(** The encoder of each channel of [Logger001.NewLogger]. *)
Definition encoder001 (config : Logger001.Config) (h : Handle) : Encoder :=
  match h with
  | infoLogWriter | errorLogWriter => NewJSONEncoder Logger001.encoderConfig
  | Stdout => NewConsoleEncoder (Logger001.getEncoderConfig config)
  end.

(** The lines among the calls a destination received. *)
Fixpoint lines (evs : list WEvent) : list Line :=
  match evs with
  | [] => []
  | Wrote l :: rest => l :: lines rest
  | Synced :: rest => lines rest
  end.

(** What a destination holds after the calls [evs] it received, when
    [ok n] tells whether the [n]-th [Write] on it succeeded.  A [Write] that
    fails stores nothing: zap reports its error on its own error output, and
    neither the logging call nor its caller sees it.  A [Sync] stores
    nothing either: lumberjack writes straight to the file, and
    [zapcore.AddSync] gives a [lumberjack.Logger], which has no [Sync]
    method, one that does nothing.  What rotation later renames or deletes
    is lumberjack's and is not followed. *)
Fixpoint stored_from (ok : nat -> bool) (n : nat) (evs : list WEvent) : list Line :=
  match evs with
  | [] => []
  | Wrote l :: rest => (if ok n then [l] else []) ++ stored_from ok (S n) rest
  | Synced :: rest => stored_from ok n rest
  end.

Definition stored (ok : nat -> bool) (evs : list WEvent) : list Line :=
  stored_from ok 0 evs.

(** How often a key occurs in a field list. *)
Definition count_key (key : string) (fields : list Field) : nat :=
  List.length (filter (fun f => String.eqb (Key f) key) fields).

(** The count of built loggers follows the one-time guard. *)
Definition guard_counts (s : Logger001.State) : Prop :=
  Logger001.constructed s = if Logger001.once s then 1%nat else 0%nat.

End Observe.

(** ** The formatted variants and the calls that log *)
Module Variants.
Import zapcore.

Inductive Formatted := FInfof | FErrorf | FDebugf | FWarnf | FFatalf.

Definition formatted_level (v : Formatted) : Level :=
  match v with
  | FInfof => InfoLevel
  | FErrorf => ErrorLevel
  | FDebugf => DebugLevel
  | FWarnf => WarnLevel
  | FFatalf => FatalLevel
  end.

(** The method of [*Logger] in [Logger001] for each variant. *)
Definition method001 `{GoRuntime} (v : Formatted)
  : option Logger001.Logger -> string -> list any -> World -> Outcome World :=
  match v with
  | FInfof => Logger001.Logger_Infof
  | FErrorf => Logger001.Logger_Errorf
  | FDebugf => Logger001.Logger_Debugf
  | FWarnf => Logger001.Logger_Warnf
  | FFatalf => Logger001.Logger_Fatalf
  end.

(** The package function in [Logger001] for each variant. *)
Definition package001 `{GoRuntime} (v : Formatted)
  : string -> list any -> Logger001.State -> Outcome Logger001.State :=
  match v with
  | FInfof => Logger001.Infof
  | FErrorf => Logger001.Errorf
  | FDebugf => Logger001.Debugf
  | FWarnf => Logger001.Warnf
  | FFatalf => Logger001.Fatalf
  end.

Definition methodPkg `{GoRuntime} (v : Formatted)
  : option PkgLogger.Logger -> string -> list any -> World -> Outcome World :=
  match v with
  | FInfof => PkgLogger.Logger_Infof
  | FErrorf => PkgLogger.Logger_Errorf
  | FDebugf => PkgLogger.Logger_Debugf
  | FWarnf => PkgLogger.Logger_Warnf
  | FFatalf => PkgLogger.Logger_Fatalf
  end.

Definition packagePkg `{GoRuntime} (v : Formatted)
  : string -> list any -> PkgLogger.State -> Outcome PkgLogger.State :=
  match v with
  | FInfof => PkgLogger.Infof
  | FErrorf => PkgLogger.Errorf
  | FDebugf => PkgLogger.Debugf
  | FWarnf => PkgLogger.Warnf
  | FFatalf => PkgLogger.Fatalf
  end.

(** The fields a formatted variant of [Logger001] attaches: none, except
    for [Errorf] with an error among its arguments. *)
Definition formatted_fields001 `{GoRuntime} (v : Formatted) (args : list any) : list Field :=
  match v, Logger001.first_error args with
  | FErrorf, Some e =>
      [zap.String "error" (Error_text e); zap.String "stacktrace" (runtime_Stack 1024)]
  | _, _ => []
  end.

(** The package functions that use the instance: all but [Init] and
    [GetInstance]. *)
Definition uses_instance001 (c : Logger001.Call) : bool :=
  match c with
  | Logger001.CallInit _ | Logger001.CallGetInstance => false
  | _ => true
  end.

Definition uses_instancePkg (c : PkgLogger.Call) : bool :=
  match c with
  | PkgLogger.CallInit _ => false
  | _ => true
  end.

(** The rotating writers among the cores of a logger. *)
Definition file_writers (c : Core) : list lumberjack.Logger :=
  flat_map (fun k => match rotation (out k) with Some lj => [lj] | None => [] end)
           (cores_of c).

(** A runtime to evaluate examples with: [Sprintf] renders the format
    followed by one mark per argument. *)
Definition sample_runtime : GoRuntime :=
  {| fmt_Sprintf := fun format args => (format ++ concat "" (map (fun _ => "*") args))%string;
     goroutine_trace := "goroutine 1 [running]:" |}.

Definition sample_config : Logger001.Config :=
  {| Logger001.InfoLogPath := "info.log";
     Logger001.ErrorLogPath := "error.log";
     Logger001.Mode := "prod" |}.

Definition sample_configPkg : PkgLogger.Config :=
  {| PkgLogger.InfoLogPath := "info.log"; PkgLogger.ErrorLogPath := "error.log" |}.

End Variants.

(** ** The records the calls issue *)
Module Issued.
Import zapcore Observe Variants.

(** The level, message and fields a package function of [Logger001]
    hands to zap; [None] for a call that logs nothing. *)
Definition issued001 `{GoRuntime} (c : Logger001.Call) : option (Level * string * list Field) :=
  match c with
  | Logger001.CallInfo msg tags => Some (InfoLevel, msg, tags)
  | Logger001.CallError msg (Some e) tags =>
      Some (ErrorLevel, msg,
            tags ++ [zap.String "error" (Error_text e);
                     zap.String "error" (Error_text e);
                     zap.String "stacktrace" (runtime_Stack 1024)])
  | Logger001.CallDebug msg tags => Some (DebugLevel, msg, tags)
  | Logger001.CallWarn msg tags => Some (WarnLevel, msg, tags)
  | Logger001.CallFatal msg tags => Some (FatalLevel, msg, tags)
  | Logger001.CallInfof msg args => Some (InfoLevel, fmt_Sprintf msg args, [])
  | Logger001.CallErrorf format args =>
      Some (ErrorLevel, fmt_Sprintf format args, formatted_fields001 FErrorf args)
  | Logger001.CallDebugf msg args => Some (DebugLevel, fmt_Sprintf msg args, [])
  | Logger001.CallWarnf msg args => Some (WarnLevel, fmt_Sprintf msg args, [])
  | Logger001.CallFatalf msg args => Some (FatalLevel, fmt_Sprintf msg args, [])
  | _ => None
  end.

Definition issuedPkg `{GoRuntime} (c : PkgLogger.Call) : option (Level * string * list Field) :=
  match c with
  | PkgLogger.CallInfo msg tags => Some (InfoLevel, msg, tags)
  | PkgLogger.CallError msg tags => Some (ErrorLevel, msg, tags)
  | PkgLogger.CallDebug msg tags => Some (DebugLevel, msg, tags)
  | PkgLogger.CallWarn msg tags => Some (WarnLevel, msg, tags)
  | PkgLogger.CallFatal msg tags => Some (FatalLevel, msg, tags)
  | PkgLogger.CallInfof msg args => Some (InfoLevel, fmt_Sprintf msg args, [])
  | PkgLogger.CallErrorf msg args => Some (ErrorLevel, fmt_Sprintf msg args, [])
  | PkgLogger.CallDebugf msg args => Some (DebugLevel, fmt_Sprintf msg args, [])
  | PkgLogger.CallWarnf msg args => Some (WarnLevel, fmt_Sprintf msg args, [])
  | PkgLogger.CallFatalf msg args => Some (FatalLevel, fmt_Sprintf msg args, [])
  | _ => None
  end.

(** The line an issued record is for a channel, if the channel takes it. *)
Definition line_for (accepts : Level -> bool) (e : Encoder)
           (r : option (Level * string * list Field)) : list Line :=
  match r with
  | Some (lvl, msg, fields) =>
      if accepts lvl then
        [{| Line_enc := e; Line_ent := entry_of lvl msg; Line_fields := fields |}]
      else []
  | None => []
  end.

(** Calls after which the caller goes on: not a fatal one, which exits,
    and not [Error] with a nil error, which panics. *)
Definition goes_on001 (c : Logger001.Call) : bool :=
  match c with
  | Logger001.CallFatal _ _ | Logger001.CallFatalf _ _
  | Logger001.CallError _ None _ => false
  | _ => true
  end.

Definition goes_onPkg (c : PkgLogger.Call) : bool :=
  match c with
  | PkgLogger.CallFatal _ _ | PkgLogger.CallFatalf _ _ => false
  | _ => true
  end.

End Issued.

(** ** Slices: what [append] does to the caller's array *)
Module GoSlice.
Import zapcore.

(** A slice of fields: the cells of its array from the slice's first
    element up to its capacity, and its length. *)
Record slice := {
  cells : list Field;
  len : nat
}.

Definition cap (s : slice) : nat := List.length (cells s).

Definition well_formed (s : slice) : Prop := (len s <= cap s)%nat.

(** The elements of the slice. *)
Definition elems (s : slice) : list Field := firstn (len s) (cells s).

(** [append(s, xs...)]: the resulting slice and the cells of [s]'s array
    afterwards.  When the capacity suffices the values are stored in the
    array of [s]; otherwise a new array is allocated and the old one is left
    alone (the new array's spare capacity is not modelled). *)
Definition append (s : slice) (xs : list Field) : slice * list Field :=
  if (len s + List.length xs <=? cap s)%nat then
    let cells' := elems s ++ xs ++ skipn (len s + List.length xs) (cells s) in
    ({| cells := cells'; len := len s + List.length xs |}, cells')
  else
    ({| cells := elems s ++ xs; len := len s + List.length xs |}, cells s).

(** [Logger.Error] of [part_001] on the slice [tags] it is passed: how the
    call ends, and the cells of the caller's array afterwards.  The
    [append] runs before [l.zap] is dereferenced. *)
Definition Logger_Error `{GoRuntime} (l : option Logger001.Logger) (msg : string)
           (err : error) (tags : slice) (w : World) : Outcome World * list Field :=
  match Logger001.zapErrorWithStack err, err with
  | Some (errMsg, errStack), Some e =>
      let (allFields, array) :=
        append tags [zap.String "error" (Error_text e); errMsg; errStack] in
      (match l with
       | None => Panicked NilLoggerDereference w
       | Some l => zap.Error (Logger001.zap l) msg (elems allFields) w
       end, array)
  | _, _ => (Panicked NilErrorDereference w, cells tags)
  end.

End GoSlice.

(** ** The plain variants that attach nothing *)
Module Plain.
Import zapcore.

Inductive Variant := PInfo | PDebug | PWarn.

Definition plain_level (v : Variant) : Level :=
  match v with
  | PInfo => InfoLevel
  | PDebug => DebugLevel
  | PWarn => WarnLevel
  end.

Definition method001 (v : Variant)
  : option Logger001.Logger -> string -> list Field -> World -> Outcome World :=
  match v with
  | PInfo => Logger001.Logger_Info
  | PDebug => Logger001.Logger_Debug
  | PWarn => Logger001.Logger_Warn
  end.

Definition package001 (v : Variant)
  : string -> list Field -> Logger001.State -> Outcome Logger001.State :=
  match v with
  | PInfo => Logger001.Info
  | PDebug => Logger001.Debug
  | PWarn => Logger001.Warn
  end.


End Plain.

(** * Properties *)

(** ** The fan-out of a zap logger *)
Section FanOut.
Import zapcore Observe.

Lemma Handle_eqb_eq (a b : Handle) : Handle_eqb a b = true <-> a = b.
Proof. destruct a, b; simpl; split; congruence. Qed.

Lemma output_emit (h h' : Handle) (e : WEvent) (w : World) :
  output (emit h e w) h' =
  if Handle_eqb h h' then output w h' ++ [e] else output w h'.
Proof. destruct h, h'; reflexivity. Qed.


Lemma ioCore_Write_output (c : ioCore) ent fields w h :
  output (ioCore_Write c ent fields w) h = output w h ++ core_events ent fields h c.
Proof.
  unfold ioCore_Write, core_events.
  destruct (Entry_Level ent >? ErrorLevel);
    rewrite ?output_emit; destruct (Handle_eqb (target (out c)) h);
    rewrite <- ?app_assoc, ?app_nil_r; reflexivity.
Qed.

Lemma fold_Write_output (cs : list ioCore) ent fields :
  forall w h,
    output (fold_left (fun acc c => ioCore_Write c ent fields acc) cs w) h =
    output w h ++ flat_map (core_events ent fields h) cs.
Proof.
  induction cs as [|c cs IH]; intros w h; simpl.
  - now rewrite app_nil_r.
  - rewrite IH, ioCore_Write_output, app_assoc. reflexivity.
Qed.

Lemma CheckedEntry_Write_output ce fields w h :
  output (state_of (CheckedEntry_Write ce fields w)) h =
  output w h ++ flat_map (core_events (ce_ent ce) fields h) (ce_cores ce).
Proof.
  unfold CheckedEntry_Write.
  destruct (ce_after ce); simpl; apply fold_Write_output.
Qed.

Lemma Core_Check_nil_when_disabled (c : Core) (ent : Entry) :
  Core_Enabled c (Entry_Level ent) = false -> Core_Check c ent = [].
Proof.
  unfold Core_Enabled, Core_Check.
  induction (cores_of c) as [|k ks IH]; simpl; [reflexivity|].
  intros H. apply orb_false_iff in H as [Hk Hks].
  rewrite Hk. auto.
Qed.


(** Every destination receives, in the order of the cores, what the cores
    that accept the level hand to it, and nothing else. *)
Lemma Log_output (log : zap.Logger) lvl msg fields w h :
  output (state_of (zap.Log log lvl msg fields w)) h =
  output w h ++
  flat_map (core_events (entry_of lvl msg) fields h)
           (Core_Check (zap.core log) (entry_of lvl msg)).
Proof.
  unfold zap.Log, zap.check. fold (entry_of lvl msg).
  destruct ((lvl <? DPanicLevel) && negb (Core_Enabled (zap.core log) lvl)) eqn:Hdrop.
  - apply andb_true_iff in Hdrop as [_ Hd]. apply negb_true_iff in Hd.
    rewrite (Core_Check_nil_when_disabled _ (entry_of lvl msg) Hd).
    simpl. now rewrite app_nil_r.
  - destruct (lvl =? PanicLevel); [apply CheckedEntry_Write_output|].
    destruct (lvl =? FatalLevel); [apply CheckedEntry_Write_output|].
    destruct (Core_Check (zap.core log) (entry_of lvl msg)) as [|k ks] eqn:Hcs.
    + simpl. now rewrite app_nil_r.
    + rewrite CheckedEntry_Write_output. simpl ce_cores. simpl ce_ent. reflexivity.
Qed.

(** How [Log] ends: a fatal entry exits with status 1, a panic entry
    panics, every other level returns. *)
Lemma Log_outcome (log : zap.Logger) lvl msg fields w :
  match zap.Log log lvl msg fields w with
  | Returned _ => lvl <> PanicLevel /\ lvl <> FatalLevel
  | Panicked v _ => lvl = PanicLevel /\ v = LoggedPanic msg
  | Exited code _ => lvl = FatalLevel /\ code = 1
  end.
Proof.
  unfold zap.Log, zap.check, PanicLevel, FatalLevel, DPanicLevel.
  destruct (Z.ltb_spec lvl 3); simpl.
  - destruct (negb _); simpl; [lia|].
    destruct (Z.eqb_spec lvl 4); [lia|]. destruct (Z.eqb_spec lvl 5); [lia|].
    destruct (Core_Check _ _); simpl; lia.
  - destruct (Z.eqb_spec lvl 4); [simpl; auto|].
    destruct (Z.eqb_spec lvl 5); [simpl; auto|].
    destruct (Core_Check _ _); simpl; lia.
Qed.

End FanOut.

(** ** Routing by severity *)
Section Routing.
Import zapcore Observe.

Ltac split_level lvl :=
  unfold DebugLevel, InfoLevel, WarnLevel, ErrorLevel in *;
  rewrite ?Z.geb_leb;
  repeat match goal with
         | |- context [?a <=? ?b] => destruct (Z.leb_spec a b); try lia
         | |- context [?a >? ?b] => rewrite (Z.gtb_ltb a b)
         | |- context [?a <? ?b] => destruct (Z.ltb_spec a b); try lia
         end.

(** [Logger001.NewLogger]: each destination receives a record exactly when
    its channel accepts the level, encoded by that channel's encoder. *)
Lemma Logger001_routing (config : Logger001.Config) lvl msg fields w h :
  output (state_of (zap.Log (Logger001.zap (Logger001.NewLogger config)) lvl msg fields w)) h =
  output w h ++ delivered (channel_accepts h) (encoder001 config h) lvl msg fields.
Proof.
  rewrite Log_output. f_equal.
  unfold delivered, channel_accepts, encoder001, Core_Check, core_events; simpl.
  destruct h; split_level lvl; simpl; reflexivity.
Qed.

(** [PkgLogger.NewLogger]: two threshold channels. *)
Lemma PkgLogger_routing (config : PkgLogger.Config) lvl msg fields w h :
  output (state_of (zap.Log (PkgLogger.zap (PkgLogger.NewLogger config)) lvl msg fields w)) h =
  output w h ++
  delivered (threshold_accepts h) (NewJSONEncoder PkgLogger.encoderConfig) lvl msg fields.
Proof.
  rewrite Log_output. f_equal.
  unfold delivered, threshold_accepts, Core_Check, core_events; simpl.
  destruct h; split_level lvl; simpl; reflexivity.
Qed.

(** [Logger000.NewLogger]: the same two threshold channels, with zap's own
    time encoder. *)
Lemma Logger000_routing (config : Logger000.Config) lvl msg fields w h :
  output (state_of (zap.Log (Logger000.zap (Logger000.NewLogger config)) lvl msg fields w)) h =
  output w h ++
  delivered (threshold_accepts h) (NewJSONEncoder zap.NewProductionEncoderConfig) lvl msg fields.
Proof.
  rewrite Log_output. f_equal.
  unfold delivered, threshold_accepts, Core_Check, core_events; simpl.
  destruct h; split_level lvl; simpl; reflexivity.
Qed.

End Routing.

(** In [Logger001] a warn record goes to the informational file and the
    console only, an error record to the error file and the console only. *)
Lemma Logger001_warn_and_error_routing (config : Logger001.Config) msg fields :
  let log := Logger001.zap (Logger001.NewLogger config) in
  let json := zapcore.NewJSONEncoder Logger001.encoderConfig in
  let console := zapcore.NewConsoleEncoder (Logger001.getEncoderConfig config) in
  let line e lvl := zapcore.Wrote {| zapcore.Line_enc := e;
                                     zapcore.Line_ent := Observe.entry_of lvl msg;
                                     zapcore.Line_fields := fields |} in
  zap.Warn log msg fields zapcore.empty_world =
    Returned {| zapcore.info_file := [line json zapcore.WarnLevel];
                zapcore.error_file := [];
                zapcore.stdout := [line console zapcore.WarnLevel] |}
  /\
  zap.Error log msg fields zapcore.empty_world =
    Returned {| zapcore.info_file := [];
                zapcore.error_file := [line json zapcore.ErrorLevel];
                zapcore.stdout := [line console zapcore.ErrorLevel] |}.
Proof. split; reflexivity. Qed.

(** C1, evaluated on [src/pkg/logger/go-logger.go]: after [Init], an
    error-level record is written to the informational file as well as to
    the error file, and a debug-level record reaches no destination at all;
    the informational channel is a threshold at [InfoLevel], not the
    debug-through-warn range, and there is no console channel. *)
Theorem PkgLogger_error_record_in_info_file (config : PkgLogger.Config) msg tags w :
  let s := PkgLogger.Init config (PkgLogger.initial w) in
  let line := zapcore.Wrote
                {| zapcore.Line_enc := zapcore.NewJSONEncoder PkgLogger.encoderConfig;
                   zapcore.Line_ent := Observe.entry_of zapcore.ErrorLevel msg;
                   zapcore.Line_fields := tags |} in
  PkgLogger.Error msg tags s =
    Returned (PkgLogger.with_world s
                {| zapcore.info_file := zapcore.info_file w ++ [line];
                   zapcore.error_file := zapcore.error_file w ++ [line];
                   zapcore.stdout := zapcore.stdout w |})
  /\ PkgLogger.Debug msg tags s = Returned s.
Proof.
  split; [reflexivity|].
  destruct w; reflexivity.
Qed.

(** ** One-time initialisation *)
Section Singleton.
Import Observe.
Context `{GoRuntime}.

Lemma state_of_map_outcome {A B} (f : A -> B) (o : Outcome A) :
  state_of (map_outcome f o) = f (state_of o).
Proof. destruct o; reflexivity. Qed.

(** In [Logger001] a second [Init] changes nothing, and one [Logger] has
    been built. *)
Lemma Logger001_Init_twice (c1 c2 : Logger001.Config) w :
  let s1 := Logger001.Init c1 (Logger001.initial w) in
  Logger001.Init c2 s1 = s1
  /\ Logger001.constructed s1 = 1%nat
  /\ Logger001.GetInstance s1 = Some (Logger001.NewLogger c1).
Proof. repeat split. Qed.

(** A call leaves the package variables as they are, unless it is the
    first [Init], which stores a new [Logger]. *)
Lemma Logger001_exec_vars (c : Logger001.Call) (s : Logger001.State) :
  let s' := state_of (Logger001.exec c s) in
  (Logger001.logInstance s' = Logger001.logInstance s
   /\ Logger001.once s' = Logger001.once s
   /\ Logger001.constructed s' = Logger001.constructed s)
  \/ (Logger001.once s = false
      /\ Logger001.once s' = true
      /\ Logger001.constructed s' = S (Logger001.constructed s)
      /\ exists config, c = Logger001.CallInit config
                        /\ Logger001.logInstance s' = Some (Logger001.NewLogger config)).
Proof.
  destruct c; simpl;
    unfold Logger001.Info, Logger001.Error, Logger001.Debug, Logger001.Warn,
      Logger001.Fatal, Logger001.Infof, Logger001.Errorf, Logger001.Debugf,
      Logger001.Warnf, Logger001.Fatalf, Logger001.on_world;
    rewrite ?state_of_map_outcome; simpl; auto.
  - unfold Logger001.Init. destruct (Logger001.once s) eqn:Honce; simpl; auto.
    right. repeat split; eauto.
  - unfold Logger001.Cleanup.
    destruct (Logger001.logInstance s) eqn:Hl; simpl; auto.
Qed.

Lemma Logger001_run_guard_counts (cs : list Logger001.Call) :
  forall s, guard_counts s -> guard_counts (state_of (Logger001.run cs s)).
Proof.
  induction cs as [|c cs IH]; intros s Hs; simpl; [exact Hs|].
  assert (Hc : guard_counts (state_of (Logger001.exec c s))).
  { destruct (Logger001_exec_vars c s) as [(_ & Ho & Hn)|(Ho & Ho' & Hn & _)];
      unfold guard_counts in *.
    - rewrite Hn, Ho. exact Hs.
    - rewrite Hn, Ho', Hs, Ho. reflexivity. }
  destruct (Logger001.exec c s) as [s1|v s1|code s1]; simpl in *; auto.
Qed.

(** From the start of the process, whatever the calls, at most one
    [Logger] is ever built. *)
Lemma Logger001_at_most_one_instance (cs : list Logger001.Call) w :
  (Logger001.constructed (state_of (Logger001.run cs (Logger001.initial w))) <= 1)%nat.
Proof.
  pose proof (Logger001_run_guard_counts cs (Logger001.initial w) eq_refl) as Hg.
  unfold guard_counts in Hg. rewrite Hg.
  destruct (Logger001.once _); auto.
Qed.

(** Once initialised, every later call of every sequence sees the same
    instance. *)
Lemma Logger001_instance_stable (cs : list Logger001.Call) :
  forall s,
    Logger001.once s = true ->
    let s' := state_of (Logger001.run cs s) in
    Logger001.logInstance s' = Logger001.logInstance s
    /\ Logger001.once s' = true
    /\ Logger001.constructed s' = Logger001.constructed s.
Proof.
  induction cs as [|c cs IH]; intros s Honce; simpl; [auto|].
  destruct (Logger001_exec_vars c s) as [(Hi & Ho & Hn)|(Ho & _)];
    [|congruence].
  rewrite Honce in Ho.
  destruct (Logger001.exec c s) as [s1|v s1|code s1]; simpl in *; auto.
  destruct (IH s1 Ho) as (Hi' & Ho' & Hn').
  rewrite Hi', Hn'. auto.
Qed.

End Singleton.

(** C2, evaluated on [src/unnamed/part_000]: [Init] there has no one-time
    guard, so a second call builds a second [Logger] and replaces the
    instance the first call stored. *)
Theorem Logger000_Init_twice_constructs_twice (c1 c2 : Logger000.Config) w :
  let s1 := Logger000.Init c1 (Logger000.initial w) in
  let s2 := Logger000.Init c2 s1 in
  Logger000.constructed s2 = 2%nat
  /\ Logger000.logInstance s2 = Some (Logger000.NewLogger c2)
  /\ s2 <> s1
  /\ Logger000.logInstance
       (Logger000.Init {| Logger000.InfoLogPath := "b.log"; Logger000.ErrorLogPath := "e.log" |}
          (Logger000.Init {| Logger000.InfoLogPath := "a.log"; Logger000.ErrorLogPath := "e.log" |}
             (Logger000.initial w)))
     <> Logger000.logInstance
          (Logger000.Init {| Logger000.InfoLogPath := "a.log"; Logger000.ErrorLogPath := "e.log" |}
             (Logger000.initial w)).
Proof.
  simpl. repeat split; try discriminate.
Qed.

(** ** Error records *)
Section ErrorRecords.
Import zapcore Observe.
Context `{GoRuntime}.

Lemma Log_returns (log : zap.Logger) lvl msg fields w :
  lvl <> PanicLevel -> lvl <> FatalLevel ->
  zap.Log log lvl msg fields w = Returned (state_of (zap.Log log lvl msg fields w)).
Proof.
  intros Hp Hf. pose proof (Log_outcome log lvl msg fields w) as Ho.
  destruct (zap.Log log lvl msg fields w); simpl; [reflexivity| |]; tauto.
Qed.

Lemma Log_fatal_exits (log : zap.Logger) msg fields w :
  zap.Log log FatalLevel msg fields w =
  Exited 1 (state_of (zap.Log log FatalLevel msg fields w)).
Proof.
  pose proof (Log_outcome log FatalLevel msg fields w) as Ho.
  destruct (zap.Log log FatalLevel msg fields w); simpl;
    unfold PanicLevel, FatalLevel in *; destruct Ho; congruence.
Qed.

Lemma take_bytes_nonempty (n : nat) (s : string) :
  s <> EmptyString -> take_bytes (S n) s <> EmptyString.
Proof. destruct s; simpl; congruence. Qed.

Lemma count_key_app key (a b : list Field) :
  count_key key (a ++ b) = (count_key key a + count_key key b)%nat.
Proof. unfold count_key. now rewrite filter_app, length_app. Qed.

(** The field list [Logger.Error] builds for a non-nil error. *)
Lemma Logger_Error_fields (l : Logger001.Logger) msg (e : error_value) tags w :
  Logger001.Logger_Error (Some l) msg (Some e) tags w =
  zap.Error (Logger001.zap l) msg
            (tags ++ [zap.String "error" (Error_text e);
                      zap.String "error" (Error_text e);
                      zap.String "stacktrace" (runtime_Stack 1024)]) w.
Proof. reflexivity. Qed.

(** C3: [Logger.Error] with a non-nil error returns, and the record it
    emits (to the error file and to the console, and to no other
    destination) carries the caller's fields, a field "error" holding the
    error's message, and a field "stacktrace" that is not empty, the
    runtime reporting a trace for the calling goroutine. *)
Theorem Error_record_has_message_and_stack
        (config : Logger001.Config) msg (e : error_value) tags w :
  goroutine_trace <> EmptyString ->
  exists stack fields w',
    Logger001.Logger_Error (Some (Logger001.NewLogger config)) msg (Some e) tags w
      = Returned w'
    /\ stack <> EmptyString
    /\ In (zap.String "error" (Error_text e)) fields
    /\ In (zap.String "stacktrace" stack) fields
    /\ (forall t, In t tags -> In t fields)
    /\ error_file w' = error_file w ++
         [Wrote {| Line_enc := NewJSONEncoder Logger001.encoderConfig;
                   Line_ent := entry_of ErrorLevel msg; Line_fields := fields |}]
    /\ stdout w' = stdout w ++
         [Wrote {| Line_enc := NewConsoleEncoder (Logger001.getEncoderConfig config);
                   Line_ent := entry_of ErrorLevel msg; Line_fields := fields |}]
    /\ info_file w' = info_file w.
Proof.
  intros Htrace.
  rewrite Logger_Error_fields.
  set (fields := tags ++ _).
  exists (runtime_Stack 1024), fields.
  eexists. split.
  { unfold zap.Error. apply Log_returns; discriminate. }
  pose proof (fun h => Logger001_routing config ErrorLevel msg fields w h) as Hr.
  unfold zap.Error.
  split; [apply (take_bytes_nonempty 1023); exact Htrace|].
  split; [apply in_or_app; right; simpl; auto|].
  split; [apply in_or_app; right; simpl; auto|].
  split; [intros t Ht; apply in_or_app; left; exact Ht|].
  split; [exact (Hr errorLogWriter)|].
  split; [exact (Hr Stdout)|].
  pose proof (Hr infoLogWriter) as Hi. simpl in Hi.
  rewrite app_nil_r in Hi. exact Hi.
Qed.

(** C10: whatever the receiver and the arguments, [Logger.Error] either
    panics on a nil error before any field list exists, or hands
    [zap.Error] the caller's fields followed by two equal fields with key
    "error" (the one appended directly and the one [zapErrorWithStack]
    returns) and the stack trace; so the key "error" occurs twice more than
    among the caller's fields, and the records written to the error file
    and to the console carry that list unchanged. *)
Theorem Error_field_list_has_error_key_twice
        (l : option Logger001.Logger) (config : Logger001.Config)
        msg (err : error) tags w :
  match err with
  | None => Logger001.Logger_Error l msg err tags w = Panicked NilErrorDereference w
  | Some e =>
      let direct := zap.String "error" (Error_text e) in
      let allFields :=
        tags ++ [direct; direct; zap.String "stacktrace" (runtime_Stack 1024)] in
      option_map fst (Logger001.zapErrorWithStack err) = Some direct
      /\ Logger001.Logger_Error l msg err tags w =
         match l with
         | None => Panicked NilLoggerDereference w
         | Some l => zap.Error (Logger001.zap l) msg allFields w
         end
      /\ count_key "error" allFields = (count_key "error" tags + 2)%nat
      /\ forall h,
           output (state_of (Logger001.Logger_Error (Some (Logger001.NewLogger config))
                                                     msg err tags w)) h =
           output w h ++
           delivered (channel_accepts h) (encoder001 config h) ErrorLevel msg allFields
  end.
Proof.
  destruct err as [e|]; [|reflexivity].
  cbv zeta. split; [reflexivity|]. split; [destruct l; reflexivity|].
  split; [rewrite count_key_app; reflexivity|].
  intros h. rewrite Logger_Error_fields. apply Logger001_routing.
Qed.

(** The loop of [Errorf] finds the first argument that is an error. *)
Lemma first_error_found (pre post : list any) (e : error_value) :
  (forall a, In a pre -> assert_error a = None) ->
  Logger001.first_error (pre ++ AnyError e :: post) = Some e.
Proof.
  induction pre as [|a pre IH]; intros Hpre; simpl; [reflexivity|].
  rewrite (Hpre a (or_introl eq_refl)). apply IH.
  intros b Hb. apply Hpre. right. exact Hb.
Qed.

Lemma first_error_none (args : list any) :
  (forall a, In a args -> assert_error a = None) ->
  Logger001.first_error args = None.
Proof.
  induction args as [|a args IH]; intros Hall; simpl; [reflexivity|].
  rewrite (Hall a (or_introl eq_refl)). apply IH.
  intros b Hb. apply Hall. right. exact Hb.
Qed.

(** C4: [Logger.Errorf] logs the rendered message at error level; when
    some argument is an error, the record carries exactly the fields
    "error", with the message of the first such argument, and "stacktrace";
    when no argument is an error it carries no field. *)
Theorem Errorf_attaches_first_error
        (config : Logger001.Config) format (args : list any) w :
  let call := Logger001.Logger_Errorf (Some (Logger001.NewLogger config)) format args w in
  let msg := fmt_Sprintf format args in
  (forall pre e post,
      args = pre ++ AnyError e :: post ->
      (forall a, In a pre -> assert_error a = None) ->
      forall h,
        output (state_of call) h =
        output w h ++
        delivered (channel_accepts h) (encoder001 config h) ErrorLevel msg
                  [zap.String "error" (Error_text e);
                   zap.String "stacktrace" (runtime_Stack 1024)])
  /\ ((forall a, In a args -> assert_error a = None) ->
      forall h,
        output (state_of call) h =
        output w h ++ delivered (channel_accepts h) (encoder001 config h) ErrorLevel msg []).
Proof.
  cbv zeta. split.
  - intros pre e post Hargs Hpre h.
    subst args. unfold Logger001.Logger_Errorf.
    rewrite (first_error_found pre post e Hpre).
    exact (Logger001_routing config ErrorLevel _ _ w h).
  - intros Hall h.
    unfold Logger001.Logger_Errorf.
    rewrite (first_error_none args Hall).
    exact (Logger001_routing config ErrorLevel _ _ w h).
Qed.

End ErrorRecords.

(** ** Formatted variants *)
Section FormattedVariants.
Import zapcore Observe Variants.
Context `{GoRuntime}.

Lemma method001_is_Log (v : Formatted) (l : Logger001.Logger) format args w :
  method001 v (Some l) format args w =
  zap.Log (Logger001.zap l) (formatted_level v) (fmt_Sprintf format args)
          (formatted_fields001 v args) w.
Proof.
  destruct v; try reflexivity.
  unfold method001, formatted_fields001, Logger001.Logger_Errorf. simpl.
  destruct (Logger001.first_error args); reflexivity.
Qed.

Lemma package001_is_method (v : Formatted) format args (s : Logger001.State) :
  package001 v format args s =
  Logger001.on_world s (method001 v (Logger001.logInstance s) format args (Logger001.world s)).
Proof. destruct v; reflexivity. Qed.

Lemma methodPkg_is_Log (v : Formatted) (l : PkgLogger.Logger) format args w :
  methodPkg v (Some l) format args w =
  zap.Log (PkgLogger.zap l) (formatted_level v) (fmt_Sprintf format args) [] w.
Proof. destruct v; reflexivity. Qed.

Lemma packagePkg_is_method (v : Formatted) format args (s : PkgLogger.State) :
  packagePkg v format args s =
  PkgLogger.on_world s (methodPkg v (PkgLogger.logInstance s) format args (PkgLogger.world s)).
Proof. destruct v; reflexivity. Qed.

(** C5: each of [Infof], [Errorf], [Debugf], [Warnf] and [Fatalf], as a
    method and as a package function, in [part_001] and in
    [pkg/logger/go-logger.go], and on whatever logger it is called, makes
    exactly the call of zap at its level whose message is [fmt.Sprintf] of
    the format and the arguments; the fields, if any, do not enter the
    rendering.  So every core of the logger that takes the level is handed
    an entry with that message; on the loggers [NewLogger] builds these are
    the channels whose filter takes the level (for [Debugf] in
    [pkg/logger/go-logger.go] there is none). *)
Theorem formatted_message_is_Sprintf (v : Formatted) format (args : list any) :
  let msg := fmt_Sprintf format args in
  let lvl := formatted_level v in
  (forall (l : Logger001.Logger) w,
      method001 v (Some l) format args w =
      zap.Log (Logger001.zap l) lvl msg (formatted_fields001 v args) w)
  /\ (forall (l : Logger001.Logger) o n w,
         package001 v format args
           {| Logger001.logInstance := Some l; Logger001.once := o;
              Logger001.constructed := n; Logger001.world := w |} =
         map_outcome
           (fun w' => {| Logger001.logInstance := Some l; Logger001.once := o;
                         Logger001.constructed := n; Logger001.world := w' |})
           (zap.Log (Logger001.zap l) lvl msg (formatted_fields001 v args) w))
  /\ (forall (l : PkgLogger.Logger) w,
         methodPkg v (Some l) format args w = zap.Log (PkgLogger.zap l) lvl msg [] w)
  /\ (forall (l : PkgLogger.Logger) o n w,
         packagePkg v format args
           {| PkgLogger.logInstance := Some l; PkgLogger.once := o;
              PkgLogger.constructed := n; PkgLogger.world := w |} =
         map_outcome
           (fun w' => {| PkgLogger.logInstance := Some l; PkgLogger.once := o;
                         PkgLogger.constructed := n; PkgLogger.world := w' |})
           (zap.Log (PkgLogger.zap l) lvl msg [] w))
  /\ (forall (l : Logger001.Logger) w h,
         output (state_of (method001 v (Some l) format args w)) h =
         output w h ++
         flat_map (core_events (entry_of lvl msg) (formatted_fields001 v args) h)
                  (Core_Check (zap.core (Logger001.zap l)) (entry_of lvl msg)))
  /\ (forall (l : PkgLogger.Logger) w h,
         output (state_of (methodPkg v (Some l) format args w)) h =
         output w h ++
         flat_map (core_events (entry_of lvl msg) [] h)
                  (Core_Check (zap.core (PkgLogger.zap l)) (entry_of lvl msg)))
  /\ (forall (config : Logger001.Config) w h,
         output (state_of (method001 v (Some (Logger001.NewLogger config)) format args w)) h =
         output w h ++
         delivered (channel_accepts h) (encoder001 config h) lvl msg
                   (formatted_fields001 v args))
  /\ (forall (config : Logger001.Config) w h,
         output (Logger001.world
                   (state_of (package001 v format args
                                         (Logger001.Init config (Logger001.initial w))))) h =
         output w h ++
         delivered (channel_accepts h) (encoder001 config h) lvl msg
                   (formatted_fields001 v args))
  /\ (forall (config : PkgLogger.Config) w h,
         output (state_of (methodPkg v (Some (PkgLogger.NewLogger config)) format args w)) h =
         output w h ++
         delivered (threshold_accepts h) (NewJSONEncoder PkgLogger.encoderConfig) lvl msg [])
  /\ (forall (config : PkgLogger.Config) w h,
         output (PkgLogger.world
                   (state_of (packagePkg v format args
                                         (PkgLogger.Init config (PkgLogger.initial w))))) h =
         output w h ++
         delivered (threshold_accepts h) (NewJSONEncoder PkgLogger.encoderConfig) lvl msg []).
Proof.
  cbv zeta.
  split; [intros l w; apply method001_is_Log|].
  split; [intros l o n w; rewrite package001_is_method;
          cbn [Logger001.logInstance Logger001.world Logger001.GetInstance];
          rewrite method001_is_Log; reflexivity|].
  split; [intros l w; apply methodPkg_is_Log|].
  split; [intros l o n w; rewrite packagePkg_is_method;
          cbn [PkgLogger.logInstance PkgLogger.world];
          rewrite methodPkg_is_Log; reflexivity|].
  split; [intros l w h; rewrite method001_is_Log; apply Log_output|].
  split; [intros l w h; rewrite methodPkg_is_Log; apply Log_output|].
  repeat split; intros config w h.
  - rewrite method001_is_Log. apply Logger001_routing.
  - rewrite package001_is_method. unfold Logger001.on_world.
    rewrite state_of_map_outcome. simpl Logger001.world. simpl Logger001.logInstance.
    rewrite method001_is_Log. apply Logger001_routing.
  - rewrite methodPkg_is_Log. apply PkgLogger_routing.
  - rewrite packagePkg_is_method. unfold PkgLogger.on_world.
    rewrite state_of_map_outcome. simpl PkgLogger.world. simpl PkgLogger.logInstance.
    rewrite methodPkg_is_Log. apply PkgLogger_routing.
Qed.

End FormattedVariants.

(** ** Calls before and after initialisation *)
Section NilInstance.
Import zapcore Observe Variants.
Context `{GoRuntime}.

(** zap itself never dereferences the facade's instance or error. *)
Lemma Log_panics_only_as_logged (log : zap.Logger) lvl msg fields w v a :
  zap.Log log lvl msg fields w = Panicked v a -> v = LoggedPanic msg /\ lvl = PanicLevel.
Proof.
  intros Hlog. pose proof (Log_outcome log lvl msg fields w) as Ho.
  rewrite Hlog in Ho. tauto.
Qed.

Lemma map_outcome_Panicked {A B} (f : A -> B) (o : Outcome A) v b :
  map_outcome f o = Panicked v b -> exists a, o = Panicked v a.
Proof. destruct o; simpl; intros Heq; inversion Heq; eauto. Qed.

Ltac zap_cannot_panic :=
  match goal with
  | Hp : zap.Log _ ?lvl _ _ _ = Panicked _ _ |- _ =>
      apply Log_panics_only_as_logged in Hp; destruct Hp as [? ?]; discriminate
  end.

Lemma Logger001_initialised_no_nil_dereference
      (c : Logger001.Call) (s : Logger001.State) (l : Logger001.Logger) s' :
  Logger001.logInstance s = Some l ->
  Logger001.exec c s <> Panicked NilLoggerDereference s'.
Proof.
  intros Hl Hexec.
  destruct c; simpl in Hexec;
    unfold Logger001.Info, Logger001.Error, Logger001.Debug, Logger001.Warn,
      Logger001.Fatal, Logger001.Infof, Logger001.Errorf, Logger001.Debugf,
      Logger001.Warnf, Logger001.Fatalf, Logger001.on_world, Logger001.Cleanup in Hexec;
    rewrite ?Hl in Hexec; try discriminate;
    apply map_outcome_Panicked in Hexec; destruct Hexec as [a Ha];
    unfold Logger001.Logger_Info, Logger001.Logger_Debug, Logger001.Logger_Warn,
      Logger001.Logger_Fatal, Logger001.Logger_Error, Logger001.Logger_Errorf,
      zap.Info, zap.Debug, zap.Warn, zap.Fatal, zap.Error in Ha;
    try zap_cannot_panic.
  - destruct err; simpl in Ha; [zap_cannot_panic|discriminate].
  - destruct (Logger001.first_error args); simpl in Ha; zap_cannot_panic.
Qed.

Lemma PkgLogger_initialised_no_nil_dereference
      (c : PkgLogger.Call) (s : PkgLogger.State) (l : PkgLogger.Logger) s' :
  PkgLogger.logInstance s = Some l ->
  PkgLogger.exec c s <> Panicked NilLoggerDereference s'.
Proof.
  intros Hl Hexec.
  destruct c; simpl in Hexec;
    unfold PkgLogger.Info, PkgLogger.Error, PkgLogger.Debug, PkgLogger.Warn,
      PkgLogger.Fatal, PkgLogger.Infof, PkgLogger.Errorf, PkgLogger.Debugf,
      PkgLogger.Warnf, PkgLogger.Fatalf, PkgLogger.on_world, PkgLogger.Cleanup in Hexec;
    rewrite ?Hl in Hexec; try discriminate;
    apply map_outcome_Panicked in Hexec; destruct Hexec as [a Ha];
    unfold PkgLogger.Logger_Info, PkgLogger.Logger_Debug, PkgLogger.Logger_Warn,
      PkgLogger.Logger_Fatal, PkgLogger.Logger_Error,
      zap.Info, zap.Debug, zap.Warn, zap.Fatal, zap.Error in Ha;
    zap_cannot_panic.
Qed.

Lemma Logger001_uninitialised_panics (c : Logger001.Call) (s : Logger001.State) :
  uses_instance001 c = true ->
  Logger001.logInstance s = None ->
  Logger001.exec c s =
  Panicked (match c with
            | Logger001.CallError _ None _ => NilErrorDereference
            | _ => NilLoggerDereference
            end) s.
Proof.
  intros Hc Hl.
  assert (Hs : Logger001.with_world s (Logger001.world s) = s) by (destruct s; reflexivity).
  destruct c; try discriminate; simpl;
    unfold Logger001.Info, Logger001.Error, Logger001.Debug, Logger001.Warn,
      Logger001.Fatal, Logger001.Infof, Logger001.Errorf, Logger001.Debugf,
      Logger001.Warnf, Logger001.Fatalf, Logger001.on_world, Logger001.Cleanup;
    rewrite Hl; simpl; rewrite ?Hs; try reflexivity.
  - destruct err; simpl; rewrite Hs; reflexivity.
  - unfold Logger001.Logger_Errorf.
    destruct (Logger001.first_error args); simpl; rewrite Hs; reflexivity.
Qed.

Lemma PkgLogger_uninitialised_panics (c : PkgLogger.Call) (s : PkgLogger.State) :
  uses_instancePkg c = true ->
  PkgLogger.logInstance s = None ->
  PkgLogger.exec c s = Panicked NilLoggerDereference s.
Proof.
  intros Hc Hl.
  assert (Hs : PkgLogger.with_world s (PkgLogger.world s) = s) by (destruct s; reflexivity).
  destruct c; try discriminate; simpl;
    unfold PkgLogger.Info, PkgLogger.Error, PkgLogger.Debug, PkgLogger.Warn,
      PkgLogger.Fatal, PkgLogger.Infof, PkgLogger.Errorf, PkgLogger.Debugf,
      PkgLogger.Warnf, PkgLogger.Fatalf, PkgLogger.on_world, PkgLogger.Cleanup;
    rewrite Hl; simpl; rewrite ?Hs; reflexivity.
Qed.

Lemma PkgLogger_run_keeps_instance (cs : list PkgLogger.Call) :
  forall s,
    PkgLogger.once s = true ->
    PkgLogger.logInstance (state_of (PkgLogger.run cs s)) = PkgLogger.logInstance s.
Proof.
  induction cs as [|d cs IH]; intros s Honce; simpl; [reflexivity|].
  assert (Hd : PkgLogger.logInstance (state_of (PkgLogger.exec d s)) = PkgLogger.logInstance s
               /\ PkgLogger.once (state_of (PkgLogger.exec d s)) = true).
  { destruct d; cbn [PkgLogger.exec];
      unfold PkgLogger.Info, PkgLogger.Error, PkgLogger.Debug, PkgLogger.Warn,
        PkgLogger.Fatal, PkgLogger.Infof, PkgLogger.Errorf, PkgLogger.Debugf,
        PkgLogger.Warnf, PkgLogger.Fatalf, PkgLogger.on_world;
      rewrite ?state_of_map_outcome; simpl; auto.
    - unfold PkgLogger.Init. rewrite Honce. auto.
    - unfold PkgLogger.Cleanup.
      destruct (PkgLogger.logInstance s) eqn:Hl; simpl; auto. }
  destruct Hd as (Hi & Ho).
  destruct (PkgLogger.exec d s) as [s1|v s1|code s1]; simpl in *; auto.
  rewrite (IH s1 Ho). exact Hi.
Qed.

(** C6, as amended: in [part_001] and in [pkg/logger/go-logger.go],
    every package function that uses the instance, called while
    [logInstance] is nil, as it is at the start of the process, panics on a
    nil dereference and leaves the state as it was; nothing recovers, so no
    later call of the sequence runs.  The dereference is that of the nil
    [*Logger], with one exception: [Error] of [part_001] given a nil error
    panics on the nil error, which it uses first.  After an [Init] at the
    start of the process, whatever calls have followed it, no call panics on
    a nil [*Logger]. *)
Theorem calls_panic_before_Init_and_not_on_nil_logger_after :
  (forall (c : Logger001.Call) (s : Logger001.State),
      uses_instance001 c = true ->
      Logger001.logInstance s = None ->
      Logger001.exec c s =
        Panicked (match c with
                  | Logger001.CallError _ None _ => NilErrorDereference
                  | _ => NilLoggerDereference
                  end) s
      /\ forall rest, Logger001.run (c :: rest) s = Logger001.exec c s)
  /\ (forall w, Logger001.logInstance (Logger001.initial w) = None)
  /\ (forall (config : Logger001.Config) w (cs : list Logger001.Call)
             (c : Logger001.Call) s',
         Logger001.exec c
           (state_of (Logger001.run cs (Logger001.Init config (Logger001.initial w))))
         <> Panicked NilLoggerDereference s')
  /\ (forall (c : PkgLogger.Call) (s : PkgLogger.State),
         uses_instancePkg c = true ->
         PkgLogger.logInstance s = None ->
         PkgLogger.exec c s = Panicked NilLoggerDereference s
         /\ forall rest, PkgLogger.run (c :: rest) s = PkgLogger.exec c s)
  /\ (forall w, PkgLogger.logInstance (PkgLogger.initial w) = None)
  /\ (forall (config : PkgLogger.Config) w (cs : list PkgLogger.Call)
             (c : PkgLogger.Call) s',
         PkgLogger.exec c
           (state_of (PkgLogger.run cs (PkgLogger.Init config (PkgLogger.initial w))))
         <> Panicked NilLoggerDereference s').
Proof.
  split.
  { intros c s Hc Hl.
    pose proof (Logger001_uninitialised_panics c s Hc Hl) as Hp.
    split; [exact Hp|]. intros rest. simpl. rewrite Hp. reflexivity. }
  split; [reflexivity|].
  split.
  { intros config w cs c s'.
    destruct (Logger001_instance_stable cs (Logger001.Init config (Logger001.initial w))
                                        eq_refl) as (Hi & _).
    eapply Logger001_initialised_no_nil_dereference. exact Hi. }
  split.
  { intros c s Hc Hl.
    pose proof (PkgLogger_uninitialised_panics c s Hc Hl) as Hp.
    split; [exact Hp|]. intros rest. simpl. rewrite Hp. reflexivity. }
  split; [reflexivity|].
  intros config w cs c s'.
  eapply PkgLogger_initialised_no_nil_dereference.
  rewrite (PkgLogger_run_keeps_instance cs (PkgLogger.Init config (PkgLogger.initial w))
                                        eq_refl).
  reflexivity.
Qed.

End NilInstance.

(** ** Construction: rotation policy and encoders *)
Section Construction.
Import zapcore Observe Variants.

(** C7: whatever the configuration, the logger built by [NewLogger] (in
    [part_001] and in [pkg/logger/go-logger.go]) has two rotating writers,
    for the informational and for the error path, each with a maximum size
    of 500 megabytes, 3 backups and a maximum age of 28 days; the
    configuration only chooses the file names. *)
Theorem rotation_policy_is_fixed :
  (forall config : Logger001.Config,
      file_writers (zap.core (Logger001.zap (Logger001.NewLogger config))) =
      [ {| lumberjack.Filename := Logger001.InfoLogPath config;
           lumberjack.MaxSize := 500; lumberjack.MaxBackups := 3; lumberjack.MaxAge := 28 |};
        {| lumberjack.Filename := Logger001.ErrorLogPath config;
           lumberjack.MaxSize := 500; lumberjack.MaxBackups := 3; lumberjack.MaxAge := 28 |} ]
      /\ rotation (out (Logger001.infoCore config)) = Some (Logger001.infoLogWriter_of config)
      /\ rotation (out (Logger001.errorCore config)) = Some (Logger001.errorLogWriter_of config))
  /\
  (forall config : PkgLogger.Config,
      file_writers (zap.core (PkgLogger.zap (PkgLogger.NewLogger config))) =
      [ {| lumberjack.Filename := PkgLogger.InfoLogPath config;
           lumberjack.MaxSize := 500; lumberjack.MaxBackups := 3; lumberjack.MaxAge := 28 |};
        {| lumberjack.Filename := PkgLogger.ErrorLogPath config;
           lumberjack.MaxSize := 500; lumberjack.MaxBackups := 3; lumberjack.MaxAge := 28 |} ]
      /\ rotation (out (PkgLogger.infoCore config)) = Some (PkgLogger.infoLogWriter_of config)
      /\ rotation (out (PkgLogger.errorCore config)) = Some (PkgLogger.errorLogWriter_of config)).
Proof. split; intros config; repeat split. Qed.




End Construction.

(** ** Flushing *)
Section Flush.
Import zapcore Observe Variants Issued.
Context `{GoRuntime}.

Lemma lines_app (a b : list WEvent) : lines (a ++ b) = lines a ++ lines b.
Proof.
  induction a as [|[l|] a IH]; simpl; [reflexivity| |]; now rewrite IH.
Qed.

(** When no write fails, a destination holds every line it was handed. *)
Lemma stored_all_ok (ok : nat -> bool) (evs : list WEvent) :
  (forall n, ok n = true) -> forall n, stored_from ok n evs = lines evs.
Proof.
  intros Hok. induction evs as [|[l|] evs IH]; intros n; simpl; auto.
  rewrite Hok, IH. reflexivity.
Qed.

(** A [Sync] adds nothing to what a destination holds. *)
Lemma stored_after_Sync (ok : nat -> bool) (evs : list WEvent) :
  forall n, stored_from ok n (evs ++ [Synced]) = stored_from ok n evs.
Proof.
  induction evs as [|[l|] evs IH]; intros n; simpl; auto.
  now rewrite IH.
Qed.

Lemma lines_delivered accepts e lvl msg fields :
  lines (delivered accepts e lvl msg fields) = line_for accepts e (Some (lvl, msg, fields)).
Proof.
  unfold delivered, line_for.
  destruct (accepts lvl); [|reflexivity].
  destruct (lvl >? ErrorLevel); reflexivity.
Qed.

Lemma Logger001_Sync_output (config : Logger001.Config) w h :
  output (zap.Sync (Logger001.zap (Logger001.NewLogger config)) w) h = output w h ++ [Synced].
Proof. destruct h; reflexivity. Qed.

Lemma PkgLogger_Sync_output (config : PkgLogger.Config) w h :
  output (zap.Sync (PkgLogger.zap (PkgLogger.NewLogger config)) w) h =
  output w h ++ (if Handle_eqb h Stdout then [] else [Synced]).
Proof. destruct h; simpl; rewrite ?app_nil_r; reflexivity. Qed.

Lemma Logger001_world_with_world (s : Logger001.State) w :
  Logger001.world (Logger001.with_world s w) = w.
Proof. reflexivity. Qed.

Lemma PkgLogger_world_with_world (s : PkgLogger.State) w :
  PkgLogger.world (PkgLogger.with_world s w) = w.
Proof. reflexivity. Qed.

Ltac unfold_package001 :=
  unfold Logger001.Info, Logger001.Error, Logger001.Debug, Logger001.Warn,
    Logger001.Fatal, Logger001.Infof, Logger001.Errorf, Logger001.Debugf,
    Logger001.Warnf, Logger001.Fatalf, Logger001.on_world.

Ltac unfold_packagePkg :=
  unfold PkgLogger.Info, PkgLogger.Error, PkgLogger.Debug, PkgLogger.Warn,
    PkgLogger.Fatal, PkgLogger.Infof, PkgLogger.Errorf, PkgLogger.Debugf,
    PkgLogger.Warnf, PkgLogger.Fatalf, PkgLogger.on_world.

(** What one call adds to the lines of a destination, [part_001]. *)
Lemma Logger001_exec_lines (config : Logger001.Config) (c : Logger001.Call)
      (s : Logger001.State) h :
  Logger001.logInstance s = Some (Logger001.NewLogger config) ->
  Logger001.once s = true ->
  lines (output (Logger001.world (state_of (Logger001.exec c s))) h) =
  lines (output (Logger001.world s) h) ++
  line_for (channel_accepts h) (encoder001 config h) (issued001 c).
Proof.
  intros Hl Honce.
  pose proof (fun lvl msg fields =>
                Logger001_routing config lvl msg fields (Logger001.world s) h) as Hr.
  destruct c; cbn [Logger001.exec]; unfold_package001;
    rewrite ?state_of_map_outcome, ?Hl, ?Logger001_world_with_world;
    unfold Logger001.Logger_Info, Logger001.Logger_Debug, Logger001.Logger_Warn,
      Logger001.Logger_Fatal, zap.Info, zap.Debug, zap.Warn, zap.Fatal;
    try (rewrite Hr, lines_app, lines_delivered; reflexivity).
  - unfold Logger001.Init. rewrite Honce. simpl. now rewrite app_nil_r.
  - destruct err as [e|].
    + rewrite Logger_Error_fields. unfold zap.Error.
      rewrite Hr, lines_app, lines_delivered. reflexivity.
    + simpl. now rewrite app_nil_r.
  - change (Logger001.Logger_Errorf (Some (Logger001.NewLogger config)) format args
                                    (Logger001.world s))
      with (method001 FErrorf (Some (Logger001.NewLogger config)) format args
                      (Logger001.world s)).
    rewrite method001_is_Log, Hr, lines_app, lines_delivered. reflexivity.
  - simpl. now rewrite app_nil_r.
  - unfold Logger001.Cleanup. rewrite Hl. cbn [state_of].
    rewrite Logger001_world_with_world, Logger001_Sync_output, lines_app.
    reflexivity.
Qed.

Lemma Logger001_run_lines (config : Logger001.Config) (cs : list Logger001.Call) h :
  forall s s',
    Logger001.logInstance s = Some (Logger001.NewLogger config) ->
    Logger001.once s = true ->
    Logger001.run cs s = Returned s' ->
    Logger001.logInstance s' = Some (Logger001.NewLogger config)
    /\ Logger001.once s' = true
    /\ lines (output (Logger001.world s') h) =
       lines (output (Logger001.world s) h) ++
       flat_map (fun c => line_for (channel_accepts h) (encoder001 config h) (issued001 c)) cs.
Proof.
  induction cs as [|c cs IH]; intros s s' Hl Honce Hrun; simpl in *.
  - inversion Hrun; subst. rewrite app_nil_r. auto.
  - pose proof (Logger001_exec_lines config c s h Hl Honce) as Hstep.
    destruct (Logger001_exec_vars c s) as [(Hi & Ho & _)|(Ho & _)]; [|congruence].
    destruct (Logger001.exec c s) as [s1|v s1|code s1]; try discriminate.
    simpl in *. rewrite Hl in Hi. rewrite Honce in Ho.
    destruct (IH s1 s' Hi Ho Hrun) as (Hi' & Ho' & Hlines).
    rewrite Hlines, Hstep, app_assoc. auto.
Qed.

Lemma Logger001_run_app (cs : list Logger001.Call) (c : Logger001.Call) :
  forall s s',
    Logger001.run (cs ++ [c]) s = Returned s' <->
    exists s1, Logger001.run cs s = Returned s1 /\ Logger001.exec c s1 = Returned s'.
Proof.
  induction cs as [|d cs IH]; intros s s'; simpl.
  - split.
    + intros Hrun. exists s. split; [reflexivity|].
      destruct (Logger001.exec c s); congruence.
    + intros (s1 & Hs1 & Hexec). inversion Hs1; subst. now rewrite Hexec.
  - destruct (Logger001.exec d s) as [s1|v s1|code s1]; [apply IH| |];
      split; try discriminate; intros (s2 & Hs2 & _); discriminate.
Qed.

(** A call that goes on returns, once the instance is set. *)
Lemma Logger001_goes_on_returns (c : Logger001.Call) (s : Logger001.State) l :
  Logger001.logInstance s = Some l ->
  goes_on001 c = true ->
  exists s', Logger001.exec c s = Returned s'.
Proof.
  intros Hl Hc.
  destruct c; try discriminate; simpl Logger001.exec; unfold_package001;
    rewrite ?Hl;
    unfold Logger001.Logger_Info, Logger001.Logger_Debug, Logger001.Logger_Warn,
      zap.Info, zap.Debug, zap.Warn;
    try (rewrite Log_returns by discriminate; simpl; eauto);
    try (eexists; reflexivity).
  - destruct err as [e|]; [|discriminate].
    rewrite Logger_Error_fields. unfold zap.Error.
    rewrite Log_returns by discriminate. simpl. eauto.
  - change (Logger001.Logger_Errorf (Some l) format args (Logger001.world s))
      with (method001 FErrorf (Some l) format args (Logger001.world s)).
    rewrite method001_is_Log, Log_returns by discriminate. simpl. eauto.
  - unfold Logger001.Cleanup. rewrite Hl. eauto.
Qed.

Lemma Logger001_run_returns (cs : list Logger001.Call) :
  forall s l,
    Logger001.logInstance s = Some l ->
    Logger001.once s = true ->
    forallb goes_on001 cs = true ->
    exists s', Logger001.run cs s = Returned s'.
Proof.
  induction cs as [|c cs IH]; intros s l Hl Honce Hcs; simpl in *; [eauto|].
  apply andb_true_iff in Hcs as [Hc Hcs].
  destruct (Logger001_goes_on_returns c s l Hl Hc) as [s1 Hs1].
  destruct (Logger001_exec_vars c s) as [(Hi & Ho & _)|(Ho & _)]; [|congruence].
  rewrite Hs1 in *. simpl in *.
  apply (IH s1 l); congruence.
Qed.

(** The same for [pkg/logger/go-logger.go]. *)
Lemma PkgLogger_exec_frame (c : PkgLogger.Call) (s : PkgLogger.State) :
  PkgLogger.once s = true ->
  PkgLogger.logInstance (state_of (PkgLogger.exec c s)) = PkgLogger.logInstance s
  /\ PkgLogger.once (state_of (PkgLogger.exec c s)) = true.
Proof.
  intros Honce.
  destruct c; cbn [PkgLogger.exec]; unfold_packagePkg;
    rewrite ?state_of_map_outcome; simpl; auto.
  - unfold PkgLogger.Init. rewrite Honce. auto.
  - unfold PkgLogger.Cleanup.
    destruct (PkgLogger.logInstance s) eqn:Hl; simpl; auto.
Qed.

Lemma PkgLogger_exec_lines (config : PkgLogger.Config) (c : PkgLogger.Call)
      (s : PkgLogger.State) h :
  PkgLogger.logInstance s = Some (PkgLogger.NewLogger config) ->
  PkgLogger.once s = true ->
  lines (output (PkgLogger.world (state_of (PkgLogger.exec c s))) h) =
  lines (output (PkgLogger.world s) h) ++
  line_for (threshold_accepts h) (NewJSONEncoder PkgLogger.encoderConfig) (issuedPkg c).
Proof.
  intros Hl Honce.
  pose proof (fun lvl msg fields =>
                PkgLogger_routing config lvl msg fields (PkgLogger.world s) h) as Hr.
  destruct c; cbn [PkgLogger.exec]; unfold_packagePkg;
    rewrite ?state_of_map_outcome, ?Hl, ?PkgLogger_world_with_world;
    unfold PkgLogger.Logger_Info, PkgLogger.Logger_Debug, PkgLogger.Logger_Warn,
      PkgLogger.Logger_Fatal, PkgLogger.Logger_Error,
      zap.Info, zap.Debug, zap.Warn, zap.Fatal, zap.Error;
    try (rewrite Hr, lines_app, lines_delivered; reflexivity).
  - unfold PkgLogger.Init. rewrite Honce. simpl. now rewrite app_nil_r.
  - unfold PkgLogger.Cleanup. rewrite Hl. cbn [state_of].
    rewrite PkgLogger_world_with_world, PkgLogger_Sync_output, lines_app.
    destruct (Handle_eqb h Stdout); reflexivity.
Qed.

Lemma PkgLogger_run_lines (config : PkgLogger.Config) (cs : list PkgLogger.Call) h :
  forall s s',
    PkgLogger.logInstance s = Some (PkgLogger.NewLogger config) ->
    PkgLogger.once s = true ->
    PkgLogger.run cs s = Returned s' ->
    PkgLogger.logInstance s' = Some (PkgLogger.NewLogger config)
    /\ PkgLogger.once s' = true
    /\ lines (output (PkgLogger.world s') h) =
       lines (output (PkgLogger.world s) h) ++
       flat_map (fun c => line_for (threshold_accepts h)
                                   (NewJSONEncoder PkgLogger.encoderConfig) (issuedPkg c)) cs.
Proof.
  induction cs as [|c cs IH]; intros s s' Hl Honce Hrun; simpl in *.
  - inversion Hrun; subst. rewrite app_nil_r. auto.
  - pose proof (PkgLogger_exec_lines config c s h Hl Honce) as Hstep.
    destruct (PkgLogger_exec_frame c s Honce) as (Hi & Ho).
    destruct (PkgLogger.exec c s) as [s1|v s1|code s1]; try discriminate.
    simpl in *. rewrite Hl in Hi.
    destruct (IH s1 s' Hi Ho Hrun) as (Hi' & Ho' & Hlines).
    rewrite Hlines, Hstep, app_assoc. auto.
Qed.

Lemma PkgLogger_run_app (cs : list PkgLogger.Call) (c : PkgLogger.Call) :
  forall s s',
    PkgLogger.run (cs ++ [c]) s = Returned s' <->
    exists s1, PkgLogger.run cs s = Returned s1 /\ PkgLogger.exec c s1 = Returned s'.
Proof.
  induction cs as [|d cs IH]; intros s s'; simpl.
  - split.
    + intros Hrun. exists s. split; [reflexivity|].
      destruct (PkgLogger.exec c s); congruence.
    + intros (s1 & Hs1 & Hexec). inversion Hs1; subst. now rewrite Hexec.
  - destruct (PkgLogger.exec d s) as [s1|v s1|code s1]; [apply IH| |];
      split; try discriminate; intros (s2 & Hs2 & _); discriminate.
Qed.

Lemma PkgLogger_goes_on_returns (c : PkgLogger.Call) (s : PkgLogger.State) l :
  PkgLogger.logInstance s = Some l ->
  goes_onPkg c = true ->
  exists s', PkgLogger.exec c s = Returned s'.
Proof.
  intros Hl Hc.
  destruct c; try discriminate; cbn [PkgLogger.exec]; unfold_packagePkg;
    rewrite ?Hl;
    unfold PkgLogger.Logger_Info, PkgLogger.Logger_Debug, PkgLogger.Logger_Warn,
      PkgLogger.Logger_Error, zap.Info, zap.Debug, zap.Warn, zap.Error;
    try (rewrite Log_returns by discriminate; simpl; eauto);
    try (eexists; reflexivity).
  unfold PkgLogger.Cleanup. rewrite Hl. eauto.
Qed.

Lemma PkgLogger_run_returns (cs : list PkgLogger.Call) :
  forall s l,
    PkgLogger.logInstance s = Some l ->
    PkgLogger.once s = true ->
    forallb goes_onPkg cs = true ->
    exists s', PkgLogger.run cs s = Returned s'.
Proof.
  induction cs as [|c cs IH]; intros s l Hl Honce Hcs; simpl in *; [eauto|].
  apply andb_true_iff in Hcs as [Hc Hcs].
  destruct (PkgLogger_goes_on_returns c s l Hl Hc) as [s1 Hs1].
  destruct (PkgLogger_exec_frame c s Honce) as (Hi & Ho).
  rewrite Hs1 in *. simpl in *.
  apply (IH s1 l); congruence.
Qed.

Lemma forallb_goes_on_app {A} (f : A -> bool) (cs : list A) (c : A) :
  forallb f cs = true -> f c = true -> forallb f (cs ++ [c]) = true.
Proof. intros Hcs Hc. rewrite forallb_app, Hcs. simpl. now rewrite Hc. Qed.

(** C9, as amended: in [part_001] and in [pkg/logger/go-logger.go], with
    the instance set, let a sequence of calls be followed by [Cleanup].  If
    none of the calls is fatal or passes a nil error, [Cleanup] is reached
    and returns.  Whenever it returns, each destination has been handed
    exactly the records the calls issued for it (those of a level its
    channel takes), once each and in order; if no write on the destination
    failed, it holds all of them; and [Cleanup] itself has added nothing to
    what the destination holds. *)
Theorem Cleanup_returns_with_what_the_writes_stored :
  (forall (config : Logger001.Config) (cs : list Logger001.Call) (s : Logger001.State),
      Logger001.logInstance s = Some (Logger001.NewLogger config) ->
      Logger001.once s = true ->
      (forallb goes_on001 cs = true ->
       exists s', Logger001.run (cs ++ [Logger001.CallCleanup]) s = Returned s')
      /\ forall s' h,
          Logger001.run (cs ++ [Logger001.CallCleanup]) s = Returned s' ->
          lines (output (Logger001.world s') h) =
            lines (output (Logger001.world s) h) ++
            flat_map (fun c => line_for (channel_accepts h) (encoder001 config h)
                                        (issued001 c)) cs
          /\ (forall ok, (forall n, ok n = true) ->
                stored ok (output (Logger001.world s') h) =
                lines (output (Logger001.world s) h) ++
                flat_map (fun c => line_for (channel_accepts h) (encoder001 config h)
                                            (issued001 c)) cs)
          /\ exists s1,
              Logger001.run cs s = Returned s1
              /\ forall ok, stored ok (output (Logger001.world s') h) =
                            stored ok (output (Logger001.world s1) h))
  /\
  (forall (config : PkgLogger.Config) (cs : list PkgLogger.Call) (s : PkgLogger.State),
      PkgLogger.logInstance s = Some (PkgLogger.NewLogger config) ->
      PkgLogger.once s = true ->
      (forallb goes_onPkg cs = true ->
       exists s', PkgLogger.run (cs ++ [PkgLogger.CallCleanup]) s = Returned s')
      /\ forall s' h,
          PkgLogger.run (cs ++ [PkgLogger.CallCleanup]) s = Returned s' ->
          lines (output (PkgLogger.world s') h) =
            lines (output (PkgLogger.world s) h) ++
            flat_map (fun c => line_for (threshold_accepts h)
                                        (NewJSONEncoder PkgLogger.encoderConfig)
                                        (issuedPkg c)) cs
          /\ (forall ok, (forall n, ok n = true) ->
                stored ok (output (PkgLogger.world s') h) =
                lines (output (PkgLogger.world s) h) ++
                flat_map (fun c => line_for (threshold_accepts h)
                                            (NewJSONEncoder PkgLogger.encoderConfig)
                                            (issuedPkg c)) cs)
          /\ exists s1,
              PkgLogger.run cs s = Returned s1
              /\ forall ok, stored ok (output (PkgLogger.world s') h) =
                            stored ok (output (PkgLogger.world s1) h)).
Proof.
  split.
  - intros config cs s Hl Honce. split.
    + intros Hcs. eapply Logger001_run_returns; eauto.
      apply forallb_goes_on_app; auto.
    + intros s' h Hrun.
      apply Logger001_run_app in Hrun as (s1 & Hrun & Hclean).
      destruct (Logger001_run_lines config cs h s s1 Hl Honce Hrun) as (Hl1 & _ & Hlines).
      cbn [Logger001.exec] in Hclean. unfold Logger001.Cleanup in Hclean.
      rewrite Hl1 in Hclean.
      assert (Hs' : s' = Logger001.with_world s1
                           (zap.Sync (Logger001.zap (Logger001.NewLogger config))
                                     (Logger001.world s1))) by congruence.
      subst s'; clear Hclean.
      rewrite Logger001_world_with_world, Logger001_Sync_output.
      assert (Hkept : lines (output (Logger001.world s1) h ++ [Synced]) =
                      lines (output (Logger001.world s) h) ++
                      flat_map (fun c => line_for (channel_accepts h) (encoder001 config h)
                                                  (issued001 c)) cs)
        by (rewrite lines_app, app_nil_r; exact Hlines).
      split; [exact Hkept|]. split.
      * intros ok Hok. unfold stored. rewrite (stored_all_ok ok _ Hok). exact Hkept.
      * exists s1. split; [exact Hrun|]. intros ok. apply stored_after_Sync.
  - intros config cs s Hl Honce. split.
    + intros Hcs. eapply PkgLogger_run_returns; eauto.
      apply forallb_goes_on_app; auto.
    + intros s' h Hrun.
      apply PkgLogger_run_app in Hrun as (s1 & Hrun & Hclean).
      destruct (PkgLogger_run_lines config cs h s s1 Hl Honce Hrun) as (Hl1 & _ & Hlines).
      cbn [PkgLogger.exec] in Hclean. unfold PkgLogger.Cleanup in Hclean.
      rewrite Hl1 in Hclean.
      assert (Hs' : s' = PkgLogger.with_world s1
                           (zap.Sync (PkgLogger.zap (PkgLogger.NewLogger config))
                                     (PkgLogger.world s1))) by congruence.
      subst s'; clear Hclean.
      rewrite PkgLogger_world_with_world, PkgLogger_Sync_output.
      assert (Hkept : lines (output (PkgLogger.world s1) h ++
                             (if Handle_eqb h Stdout then [] else [Synced])) =
                      lines (output (PkgLogger.world s) h) ++
                      flat_map (fun c => line_for (threshold_accepts h)
                                                  (NewJSONEncoder PkgLogger.encoderConfig)
                                                  (issuedPkg c)) cs)
        by (rewrite lines_app; destruct (Handle_eqb h Stdout); simpl;
            rewrite app_nil_r; exact Hlines).
      split; [exact Hkept|]. split.
      * intros ok Hok. unfold stored. rewrite (stored_all_ok ok _ Hok). exact Hkept.
      * exists s1. split; [exact Hrun|]. intros ok. unfold stored.
        destruct (Handle_eqb h Stdout); [now rewrite app_nil_r|apply stored_after_Sync].
Qed.

End Flush.

(** ** The facade at work on concrete calls *)
Section Examples.
Import zapcore Observe Variants Issued.

Let rt := sample_runtime.
Let json := NewJSONEncoder Logger001.encoderConfig.
Let console := NewConsoleEncoder zap.NewProductionEncoderConfig.
Let enoent := errorString "no such file".

(** [Init], an info record, an error record with an error, [Cleanup]. *)
Example run_info_error_cleanup :
  let stack := zap.String "stacktrace" "goroutine 1 [running]:" in
  let err := zap.String "error" "no such file" in
  let user := zap.String "user" "u1" in
  let info l := Wrote {| Line_enc := l; Line_ent := entry_of InfoLevel "started";
                         Line_fields := [] |} in
  let failed l := Wrote {| Line_enc := l; Line_ent := entry_of ErrorLevel "open failed";
                           Line_fields := [user; err; err; stack] |} in
  Logger001.run (H := rt)
    [Logger001.CallInit sample_config;
     Logger001.CallInfo "started" [];
     Logger001.CallError "open failed" (Some enoent) [user];
     Logger001.CallCleanup]
    (Logger001.initial empty_world)
  = Returned
      {| Logger001.logInstance := Some (Logger001.NewLogger sample_config);
         Logger001.once := true;
         Logger001.constructed := 1;
         Logger001.world :=
           {| info_file := [info json; Synced];
              error_file := [failed json; Synced];
              stdout := [info console; failed console; Synced] |} |}.
Proof. reflexivity. Qed.

(** A fatal record is written and synced, and the process exits with
    status 1; the calls after it do not run. *)
Example run_fatal_exits :
  let fatal l := Wrote {| Line_enc := l; Line_ent := entry_of FatalLevel "giving up**";
                          Line_fields := [] |} in
  Logger001.run (H := rt)
    [Logger001.CallFatalf "giving up" [AnyInt 1; AnyBool true];
     Logger001.CallInfo "not reached" []]
    (Logger001.Init sample_config (Logger001.initial empty_world))
  = Exited 1
      (Logger001.with_world
         (Logger001.Init sample_config (Logger001.initial empty_world))
         {| info_file := [];
            error_file := [fatal json; Synced];
            stdout := [fatal console; Synced] |}).
Proof. reflexivity. Qed.

(** [Errorf] picks the first error among its arguments. *)
Example Errorf_first_of_two_errors :
  Logger001.first_error
    [AnyString "x"; AnyNil; AnyError (errorString "first"); AnyError (errorString "second")]
  = Some (errorString "first").
Proof. reflexivity. Qed.

(** In [pkg/logger/go-logger.go] a debug record is dropped and a warn
    record goes to the informational file only. *)
Example PkgLogger_debug_and_warn :
  PkgLogger.run (H := rt)
    [PkgLogger.CallDebug "probe" []; PkgLogger.CallWarn "slow" []]
    (PkgLogger.Init sample_configPkg (PkgLogger.initial empty_world))
  = Returned
      (PkgLogger.with_world
         (PkgLogger.Init sample_configPkg (PkgLogger.initial empty_world))
         {| info_file := [Wrote {| Line_enc := NewJSONEncoder PkgLogger.encoderConfig;
                                   Line_ent := entry_of WarnLevel "slow";
                                   Line_fields := [] |}];
            error_file := [];
            stdout := [] |}).
Proof. reflexivity. Qed.

(** A stack trace longer than the buffer is cut at 1024 bytes. *)
Example take_bytes_cuts :
  take_bytes 4 "goroutine" = "goro"%string /\ take_bytes 1024 "short" = "short"%string.
Proof. split; reflexivity. Qed.

End Examples.

(** ** Instances of the conditional statements *)

(** C3 at a concrete call. *)
Lemma Error_record_has_message_and_stack_witness :
  @goroutine_trace Variants.sample_runtime <> EmptyString
  /\ exists stack fields w',
      Logger001.Logger_Error (H := Variants.sample_runtime)
        (Some (Logger001.NewLogger Variants.sample_config)) "open failed"
        (Some (errorString "no such file")) [zap.String "user" "u1"]
        zapcore.empty_world = Returned w'
      /\ stack <> EmptyString
      /\ In (zap.String "error" "no such file") fields
      /\ In (zap.String "stacktrace" stack) fields
      /\ In (zap.String "user" "u1") fields.
Proof.
  split; [discriminate|].
  destruct (@Error_record_has_message_and_stack
              Variants.sample_runtime Variants.sample_config "open failed"%string
              (errorString "no such file") [zap.String "user" "u1"]
              zapcore.empty_world)
    as (stack & fields & w' & Hcall & Hstack & Herr & Htrace & Htags & _).
  - discriminate.
  - exists stack, fields, w'. repeat split; auto.
    apply Htags. simpl. auto.
Defined.

(** C4 at a concrete call: the second argument is the first error. *)
Lemma Errorf_attaches_first_error_witness :
  zapcore.error_file
    (state_of
       (Logger001.Logger_Errorf (H := Variants.sample_runtime)
          (Some (Logger001.NewLogger Variants.sample_config)) "sync: "
          [AnyString "x"; AnyError (errorString "boom"); AnyError (errorString "late")]
          zapcore.empty_world))
  = [zapcore.Wrote
       {| zapcore.Line_enc := zapcore.NewJSONEncoder Logger001.encoderConfig;
          zapcore.Line_ent := Observe.entry_of zapcore.ErrorLevel "sync: ***";
          zapcore.Line_fields :=
            [zap.String "error" "boom";
             zap.String "stacktrace" "goroutine 1 [running]:"] |}]
  /\ zapcore.stdout
       (state_of
          (Logger001.Logger_Errorf (H := Variants.sample_runtime)
             (Some (Logger001.NewLogger Variants.sample_config)) "done"
             [AnyString "x"; AnyInt 3] zapcore.empty_world))
     = [zapcore.Wrote
          {| zapcore.Line_enc := zapcore.NewConsoleEncoder zap.NewProductionEncoderConfig;
             zapcore.Line_ent := Observe.entry_of zapcore.ErrorLevel "done**";
             zapcore.Line_fields := [] |}].
Proof.
  split.
  - refine (proj1 (@Errorf_attaches_first_error
                     Variants.sample_runtime Variants.sample_config "sync: "%string
                     [AnyString "x"; AnyError (errorString "boom"); AnyError (errorString "late")]
                     zapcore.empty_world)
                  [AnyString "x"] (errorString "boom") [AnyError (errorString "late")]
                  eq_refl _ zapcore.errorLogWriter).
    intros a [<-|[]]. reflexivity.
  - refine (proj2 (@Errorf_attaches_first_error
                     Variants.sample_runtime Variants.sample_config "done"%string
                     [AnyString "x"; AnyInt 3] zapcore.empty_world)
                  _ zapcore.Stdout).
    intros a [<-|[<-|[]]]; reflexivity.
Defined.

(** C6 as first stated fails on one call of [part_001]: before [Init],
    [Error] given a nil error uses the instance and finds it nil, yet the
    panic is that of the nil error, not of the nil [*Logger]. *)
Lemma Error_with_nil_error_before_Init_panics_on_the_error :
  Variants.uses_instance001 (Logger001.CallError "lost" None []) = true
  /\ Logger001.logInstance (Logger001.initial zapcore.empty_world) = None
  /\ Logger001.exec (H := Variants.sample_runtime) (Logger001.CallError "lost" None [])
                    (Logger001.initial zapcore.empty_world)
     = Panicked NilErrorDereference (Logger001.initial zapcore.empty_world)
  /\ Logger001.exec (H := Variants.sample_runtime) (Logger001.CallError "lost" None [])
                    (Logger001.initial zapcore.empty_world)
     <> Panicked NilLoggerDereference (Logger001.initial zapcore.empty_world).
Proof. repeat split. discriminate. Qed.

(** C6 as amended, at concrete calls: before [Init], [Info] panics on the
    nil logger and [Cleanup] stops the sequence; after [Init] and two calls,
    [Warn] does not panic on a nil logger. *)
Lemma calls_panic_before_Init_and_not_on_nil_logger_after_witness :
  Logger001.exec (H := Variants.sample_runtime) (Logger001.CallInfo "up" [])
                 (Logger001.initial zapcore.empty_world)
  = Panicked NilLoggerDereference (Logger001.initial zapcore.empty_world)
  /\ PkgLogger.run (H := Variants.sample_runtime)
       [PkgLogger.CallCleanup; PkgLogger.CallInit Variants.sample_configPkg]
       (PkgLogger.initial zapcore.empty_world)
     = PkgLogger.exec (H := Variants.sample_runtime) PkgLogger.CallCleanup
                      (PkgLogger.initial zapcore.empty_world)
  /\ Logger001.exec (H := Variants.sample_runtime) (Logger001.CallWarn "slow" [])
       (state_of
          (Logger001.run (H := Variants.sample_runtime)
             [Logger001.CallInfo "up" []; Logger001.CallCleanup]
             (Logger001.Init Variants.sample_config
                             (Logger001.initial zapcore.empty_world))))
     <> Panicked NilLoggerDereference (Logger001.initial zapcore.empty_world).
Proof.
  pose proof (@calls_panic_before_Init_and_not_on_nil_logger_after Variants.sample_runtime)
    as (Hbefore & _ & Hafter & HbeforePkg & _).
  split; [exact (proj1 (Hbefore (Logger001.CallInfo "up" [])
                                (Logger001.initial zapcore.empty_world) eq_refl eq_refl))|].
  split; [exact (proj2 (HbeforePkg PkgLogger.CallCleanup
                                   (PkgLogger.initial zapcore.empty_world) eq_refl eq_refl)
                       [PkgLogger.CallInit Variants.sample_configPkg])|].
  apply Hafter.
Defined.

(** C9 as first stated fails when a write fails: after [Init], [Info]
    issues a record for the informational file and returns, [Cleanup]
    returns, and with the write on that file failed the file holds nothing.
    It also has nothing to say of a record no channel takes: in
    [pkg/logger/go-logger.go] a debug record is in no file after [Cleanup]
    although every write succeeded. *)
Lemma Cleanup_returns_though_a_record_is_lost :
  (exists s',
      Logger001.run (H := Variants.sample_runtime)
        [Logger001.CallInfo "started" []; Logger001.CallCleanup]
        (Logger001.Init Variants.sample_config (Logger001.initial zapcore.empty_world))
      = Returned s'
      /\ Issued.line_for (Observe.channel_accepts zapcore.infoLogWriter)
                         (Observe.encoder001 Variants.sample_config zapcore.infoLogWriter)
                         (Issued.issued001 (H := Variants.sample_runtime)
                                           (Logger001.CallInfo "started" []))
         = [{| zapcore.Line_enc := zapcore.NewJSONEncoder Logger001.encoderConfig;
               zapcore.Line_ent := Observe.entry_of zapcore.InfoLevel "started";
               zapcore.Line_fields := [] |}]
      /\ Observe.stored (fun _ => false)
                        (zapcore.output (Logger001.world s') zapcore.infoLogWriter) = [])
  /\ (exists s',
         PkgLogger.run (H := Variants.sample_runtime)
           [PkgLogger.CallDebug "probe" []; PkgLogger.CallCleanup]
           (PkgLogger.Init Variants.sample_configPkg (PkgLogger.initial zapcore.empty_world))
         = Returned s'
         /\ Observe.stored (fun _ => true)
                           (zapcore.output (PkgLogger.world s') zapcore.infoLogWriter) = []
         /\ Observe.stored (fun _ => true)
                           (zapcore.output (PkgLogger.world s') zapcore.errorLogWriter) = []).
Proof.
  split; eexists; repeat split.
Qed.

(** C9 as amended, at a concrete sequence of calls with no failed write. *)
Lemma Cleanup_returns_with_what_the_writes_stored_witness :
  let cs := [Logger001.CallInfo "started" [];
             Logger001.CallError "open failed" (Some (errorString "no such file")) [];
             Logger001.CallDebugf "retry " [AnyInt 2]] in
  let s := Logger001.Init Variants.sample_config (Logger001.initial zapcore.empty_world) in
  exists s',
    Logger001.run (H := Variants.sample_runtime) (cs ++ [Logger001.CallCleanup]) s = Returned s'
    /\ forall h,
        Observe.stored (fun _ => true) (zapcore.output (Logger001.world s') h) =
        flat_map (fun c => Issued.line_for (Observe.channel_accepts h)
                                           (Observe.encoder001 Variants.sample_config h)
                                           (Issued.issued001 (H := Variants.sample_runtime) c)) cs.
Proof.
  intros cs s.
  pose proof (proj1 (@Cleanup_returns_with_what_the_writes_stored Variants.sample_runtime)
                    Variants.sample_config cs s eq_refl eq_refl) as [Hret Hall].
  destruct (Hret eq_refl) as [s' Hs'].
  exists s'. split; [exact Hs'|].
  intros h. destruct (Hall s' h Hs') as (_ & Hstored & _).
  rewrite (Hstored (fun _ => true) (fun _ => eq_refl)). destruct h; reflexivity.
Defined.

(** * Further properties of the code *)

(** ** Delivery in [part_001] *)
Section Delivery001.
Import zapcore Observe Variants Plain.
Context `{GoRuntime}.

(** X1: the logger [NewLogger] of [part_001] builds hands a record of any
    level to each destination exactly when that destination's filter takes
    the level (informational file: debug through warn; error file: error
    and above; console: debug and above); a record below debug level is
    dropped without any effect. *)
Theorem Logger001_delivers_by_level (config : Logger001.Config) lvl msg fields w :
  let log := Logger001.zap (Logger001.NewLogger config) in
  (forall h,
      output (state_of (zap.Log log lvl msg fields w)) h =
      output w h ++
      delivered (channel_accepts h) (encoder001 config h) lvl msg fields)
  /\ (lvl < DebugLevel <-> forall h, channel_accepts h lvl = false)
  /\ (zap.Log log lvl msg fields w = Returned w <-> lvl < DebugLevel).
Proof.
  cbv zeta. split; [intros h; apply Logger001_routing|].
  assert (Hlow : lvl < DebugLevel <-> forall h, channel_accepts h lvl = false).
  { unfold DebugLevel. split.
    - intros Hl h. destruct h; simpl; unfold DebugLevel, WarnLevel, ErrorLevel.
      + apply andb_false_iff. left. apply Z.leb_gt. lia.
      + apply Z.leb_gt. lia.
      + apply Z.leb_gt. lia.
    - intros Hall. specialize (Hall Stdout). simpl in Hall.
      apply Z.leb_gt in Hall. exact Hall. }
  split; [exact Hlow|]. split.
  - intros Hret.
    pose proof (Logger001_routing config lvl msg fields w Stdout) as Hr.
    rewrite Hret in Hr. simpl in Hr. unfold delivered in Hr.
    destruct (DebugLevel <=? lvl) eqn:Hle.
    + exfalso. apply (f_equal (@List.length WEvent)) in Hr.
      rewrite length_app in Hr.
      change (channel_accepts Stdout lvl) with (DebugLevel <=? lvl) in Hr.
      rewrite Hle in Hr.
      destruct (lvl >? ErrorLevel); simpl in Hr; lia.
    + apply Z.leb_gt in Hle. exact Hle.
  - intros Hl. unfold zap.Log, zap.check.
    assert (Hdis : Core_Enabled (zap.core (Logger001.zap (Logger001.NewLogger config))) lvl
                   = false).
    { unfold Core_Enabled. simpl. unfold DebugLevel, WarnLevel, ErrorLevel in *.
      rewrite !Z.geb_leb.
      destruct (Z.leb_spec (-1) lvl); [lia|].
      destruct (Z.leb_spec 2 lvl); [lia|]. reflexivity. }
    rewrite Hdis.
    assert (Hlt : (lvl <? DPanicLevel) = true)
      by (apply Z.ltb_lt; unfold DPanicLevel, DebugLevel in *; lia).
    rewrite Hlt. reflexivity.
Qed.

(** X2: in [part_001] each of [Info], [Debug] and [Warn] returns after
    writing one line to the informational file and one to the console, with
    the caller's message and exactly the caller's fields, and leaves the
    error file untouched; the package function does the same on the stored
    instance and changes no package variable. *)
Theorem plain_variants_attach_nothing (v : Variant) (config : Logger001.Config)
        msg tags w :
  let line e := Wrote {| Line_enc := e; Line_ent := entry_of (plain_level v) msg;
                         Line_fields := tags |} in
  let w' := {| info_file := info_file w ++ [line (NewJSONEncoder Logger001.encoderConfig)];
               error_file := error_file w;
               stdout := stdout w ++
                         [line (NewConsoleEncoder (Logger001.getEncoderConfig config))] |} in
  Plain.method001 v (Some (Logger001.NewLogger config)) msg tags w = Returned w'
  /\ Plain.package001 v msg tags (Logger001.Init config (Logger001.initial w)) =
     Returned (Logger001.with_world (Logger001.Init config (Logger001.initial w)) w').
Proof. destruct v; split; reflexivity. Qed.

(** X3: in [part_001] [Fatal] and [Fatalf] write the record to the error
    file and to the console, sync both, and exit the process with status 1;
    the informational file is untouched, and no later call of a sequence
    runs. *)
Theorem fatal_writes_syncs_and_exits (config : Logger001.Config) msg tags format args w rest :
  let s := Logger001.Init config (Logger001.initial w) in
  let after m fs :=
    {| info_file := info_file w;
       error_file := error_file w ++
         [Wrote {| Line_enc := NewJSONEncoder Logger001.encoderConfig;
                   Line_ent := entry_of FatalLevel m; Line_fields := fs |}; Synced];
       stdout := stdout w ++
         [Wrote {| Line_enc := NewConsoleEncoder (Logger001.getEncoderConfig config);
                   Line_ent := entry_of FatalLevel m; Line_fields := fs |}; Synced] |} in
  Logger001.Logger_Fatal (Some (Logger001.NewLogger config)) msg tags w
    = Exited 1 (after msg tags)
  /\ Logger001.Logger_Fatalf (Some (Logger001.NewLogger config)) format args w
     = Exited 1 (after (fmt_Sprintf format args) [])
  /\ Logger001.run (Logger001.CallFatal msg tags :: rest) s
     = Exited 1 (Logger001.with_world s (after msg tags))
  /\ Logger001.run (Logger001.CallFatalf format args :: rest) s
     = Exited 1 (Logger001.with_world s (after (fmt_Sprintf format args) [])).
Proof.
  cbv zeta. repeat split;
    cbn -[fmt_Sprintf]; rewrite <- ?app_assoc; reflexivity.
Qed.

End Delivery001.

(** ** How calls end, and what [Error] does with its arguments *)
Section Endings.
Import zapcore Observe Variants Issued.
Context `{GoRuntime}.

(** X4: with the instance set, a package function of [part_001] returns
    unless it is [Fatal] or [Fatalf], which exit with status 1, or [Error]
    given a nil error, which panics on the nil error and leaves every
    destination as it was. *)
Theorem calls_end_by_kind (c : Logger001.Call) (s : Logger001.State)
        (l : Logger001.Logger) :
  Logger001.logInstance s = Some l ->
  match Logger001.exec c s with
  | Returned _ => goes_on001 c = true
  | Exited code _ =>
      code = 1
      /\ ((exists msg tags, c = Logger001.CallFatal msg tags)
          \/ (exists msg args, c = Logger001.CallFatalf msg args))
  | Panicked v s' =>
      v = NilErrorDereference /\ s' = s
      /\ exists msg tags, c = Logger001.CallError msg None tags
  end.
Proof.
  intros Hl.
  assert (Hs : Logger001.with_world s (Logger001.world s) = s) by (destruct s; reflexivity).
  destruct (goes_on001 c) eqn:Hgo.
  - destruct (Logger001_goes_on_returns c s l Hl Hgo) as [s' ->]. reflexivity.
  - destruct c; try discriminate; cbn [Logger001.exec].
    + destruct err; [discriminate|].
      unfold Logger001.Error, Logger001.on_world. simpl. rewrite Hs. eauto.
    + unfold Logger001.Fatal, Logger001.on_world, Logger001.Logger_Fatal, zap.Fatal.
      rewrite Hl, Log_fatal_exits. simpl. eauto.
    + unfold Logger001.Fatalf, Logger001.on_world, Logger001.Logger_Fatal, zap.Fatal.
      rewrite Hl, Log_fatal_exits. simpl. eauto.
Qed.

Lemma take_bytes_length (n : nat) (s : string) :
  String.length (take_bytes n s) = Nat.min n (String.length s).
Proof.
  revert s. induction n as [|n IH]; intros [|c s]; simpl; auto.
Qed.

Lemma take_bytes_prefix (n : nat) (s : string) :
  exists rest, s = (take_bytes n s ++ rest)%string.
Proof.
  revert s. induction n as [|n IH]; intros [|c s]; simpl; eauto.
  destruct (IH s) as [rest Hrest]. exists rest. now rewrite <- Hrest.
Qed.

Lemma take_bytes_all (n : nat) (s : string) :
  (String.length s <= n)%nat -> take_bytes n s = s.
Proof.
  revert s. induction n as [|n IH]; intros [|c s]; simpl; intros Hlen;
    auto; try lia.
  rewrite IH by lia. reflexivity.
Qed.

(** X5: for a non-nil error [zapErrorWithStack] returns the field "error"
    with the error's message and the field "stacktrace" with a prefix of
    the goroutine's trace that is never longer than the 1024-byte buffer:
    the whole trace when it fits, its first 1024 bytes otherwise. *)
Theorem stack_field_is_bounded_prefix (e : error_value) :
  exists stack,
    Logger001.zapErrorWithStack (Some e) =
      Some (zap.String "error" (Error_text e), zap.String "stacktrace" stack)
    /\ String.length stack = Nat.min 1024 (String.length goroutine_trace)
    /\ (String.length stack <= 1024)%nat
    /\ (exists rest, goroutine_trace = (stack ++ rest)%string)
    /\ ((String.length goroutine_trace <= 1024)%nat -> stack = goroutine_trace).
Proof.
  exists (runtime_Stack 1024). unfold runtime_Stack.
  split; [reflexivity|].
  split; [apply take_bytes_length|].
  split; [rewrite take_bytes_length; apply Nat.le_min_l|].
  split; [apply take_bytes_prefix|].
  apply take_bytes_all.
Qed.

End Endings.

(** ** [append] in [Logger.Error] and the caller's array *)
Section Aliasing.
Import zapcore.
Context `{GoRuntime}.

Lemma elems_length (s : GoSlice.slice) :
  GoSlice.well_formed s -> List.length (GoSlice.elems s) = GoSlice.len s.
Proof. intros Hwf. unfold GoSlice.elems. apply firstn_length_le. exact Hwf. Qed.

Lemma append_elems (s : GoSlice.slice) (xs : list Field) :
  GoSlice.well_formed s ->
  GoSlice.elems (fst (GoSlice.append s xs)) = GoSlice.elems s ++ xs.
Proof.
  intros Hwf. pose proof (elems_length s Hwf) as Hlen.
  unfold GoSlice.append.
  destruct (GoSlice.len s + List.length xs <=? GoSlice.cap s)%nat;
    unfold GoSlice.elems at 1; cbn [fst GoSlice.cells GoSlice.len].
  - rewrite app_assoc.
    rewrite <- Hlen at 1. rewrite <- length_app.
    rewrite firstn_app, firstn_all, Nat.sub_diag. simpl. now rewrite app_nil_r.
  - rewrite <- Hlen at 1. rewrite <- length_app. apply firstn_all.
Qed.

(** X6: [Logger.Error] builds its field list with [append(tags, ...)] on
    the caller's slice.  It logs the caller's elements followed by the three
    fields, as on a list; it never changes the caller's elements or the size
    of the caller's array; when the slice has room for three more elements
    it overwrites the three cells after the slice in the caller's array,
    even if the call then panics on a nil logger, and when the error is nil
    or the room is smaller the array is left as it was. *)
Theorem Error_append_may_overwrite_callers_array
        (l : option Logger001.Logger) msg (err : error) (tags : GoSlice.slice) w :
  GoSlice.well_formed tags ->
  let result := GoSlice.Logger_Error l msg err tags w in
  fst result = Logger001.Logger_Error l msg err (GoSlice.elems tags) w
  /\ firstn (GoSlice.len tags) (snd result) = GoSlice.elems tags
  /\ List.length (snd result) = GoSlice.cap tags
  /\ (err = None \/ (GoSlice.cap tags < GoSlice.len tags + 3)%nat ->
      snd result = GoSlice.cells tags)
  /\ (forall e, err = Some e -> (GoSlice.len tags + 3 <= GoSlice.cap tags)%nat ->
      snd result =
      GoSlice.elems tags
        ++ [zap.String "error" (Error_text e); zap.String "error" (Error_text e);
            zap.String "stacktrace" (runtime_Stack 1024)]
        ++ skipn (GoSlice.len tags + 3) (GoSlice.cells tags)).
Proof.
  intros Hwf. cbv zeta.
  pose proof (elems_length tags Hwf) as Hlen.
  destruct err as [e|].
  - unfold GoSlice.Logger_Error. cbn [Logger001.zapErrorWithStack].
    set (xs := [zap.String "error" (Error_text e); zap.String "error" (Error_text e);
                zap.String "stacktrace" (runtime_Stack 1024)]).
    pose proof (append_elems tags xs Hwf) as Hel.
    destruct (GoSlice.append tags xs) as [allFields array] eqn:Happ.
    cbn [fst snd] in *. rewrite Hel.
    split; [destruct l; reflexivity|].
    unfold GoSlice.append in Happ. change (List.length xs) with 3%nat in Happ.
    destruct (Nat.leb_spec (GoSlice.len tags + 3) (GoSlice.cap tags)) as [Hroom|Hfull];
      inversion Happ; subst array; clear Happ.
    + split.
      { rewrite <- Hlen at 1. rewrite firstn_app, firstn_all, Nat.sub_diag.
        simpl. now rewrite app_nil_r. }
      split.
      { rewrite length_app, Hlen. cbn [List.length].
        rewrite length_skipn. unfold GoSlice.cap in *. lia. }
      split; [intros [Hnil|Hsmall]; [discriminate|lia]|].
      intros e' He' _. inversion He'; subst e'. reflexivity.
    + split; [reflexivity|]. split; [reflexivity|].
      split; [reflexivity|]. intros e' _ Hroom. lia.
  - unfold GoSlice.Logger_Error. cbn [Logger001.zapErrorWithStack fst snd].
    split; [reflexivity|]. split; [reflexivity|]. split; [reflexivity|].
    split; [reflexivity|]. intros e He. discriminate.
Qed.

End Aliasing.

(** ** The stored instance over sequences of calls *)
Section Instance.
Import zapcore Observe.
Context `{GoRuntime}.

(** X7: in [part_001] the first [Init] decides the instance for the rest
    of the process: whatever calls follow, later [Init]s with other
    configurations included, [GetInstance] keeps returning the logger built
    from the first configuration and exactly one logger has been built;
    before any [Init], [GetInstance] returns nil; and from the start of the
    process no sequence of calls builds more than one logger. *)
Theorem first_Init_decides_the_instance
        (c1 : Logger001.Config) (cs : list Logger001.Call) w :
  let s' := state_of (Logger001.run cs (Logger001.Init c1 (Logger001.initial w))) in
  Logger001.GetInstance s' = Some (Logger001.NewLogger c1)
  /\ Logger001.constructed s' = 1%nat
  /\ (forall c2, Logger001.Init c2 s' = s')
  /\ Logger001.GetInstance (Logger001.initial w) = None
  /\ (Logger001.constructed (state_of (Logger001.run cs (Logger001.initial w))) <= 1)%nat.
Proof.
  cbv zeta.
  destruct (Logger001_instance_stable cs (Logger001.Init c1 (Logger001.initial w)) eq_refl)
    as (Hi & Ho & Hn).
  split; [exact Hi|]. split; [exact Hn|].
  split; [intros c2; unfold Logger001.Init at 1; rewrite Ho; reflexivity|].
  split; [reflexivity|]. apply Logger001_at_most_one_instance.
Qed.

Lemma PkgLogger_exec_vars (c : PkgLogger.Call) (s : PkgLogger.State) :
  PkgLogger.once s = true ->
  PkgLogger.logInstance (state_of (PkgLogger.exec c s)) = PkgLogger.logInstance s
  /\ PkgLogger.once (state_of (PkgLogger.exec c s)) = true
  /\ PkgLogger.constructed (state_of (PkgLogger.exec c s)) = PkgLogger.constructed s.
Proof.
  intros Honce.
  destruct c; cbn [PkgLogger.exec];
    unfold PkgLogger.Info, PkgLogger.Error, PkgLogger.Debug, PkgLogger.Warn,
      PkgLogger.Fatal, PkgLogger.Infof, PkgLogger.Errorf, PkgLogger.Debugf,
      PkgLogger.Warnf, PkgLogger.Fatalf, PkgLogger.on_world;
    rewrite ?state_of_map_outcome; simpl; auto.
  - unfold PkgLogger.Init. rewrite Honce. auto.
  - unfold PkgLogger.Cleanup.
    destruct (PkgLogger.logInstance s) eqn:Hl; simpl; auto.
Qed.

Lemma PkgLogger_run_vars (cs : list PkgLogger.Call) :
  forall s,
    PkgLogger.once s = true ->
    PkgLogger.logInstance (state_of (PkgLogger.run cs s)) = PkgLogger.logInstance s
    /\ PkgLogger.once (state_of (PkgLogger.run cs s)) = true
    /\ PkgLogger.constructed (state_of (PkgLogger.run cs s)) = PkgLogger.constructed s.
Proof.
  induction cs as [|c cs IH]; intros s Honce; simpl; [auto|].
  destruct (PkgLogger_exec_vars c s Honce) as (Hi & Ho & Hn).
  destruct (PkgLogger.exec c s) as [s1|v s1|code s1]; simpl in *; auto.
  destruct (IH s1 Ho) as (Hi' & Ho' & Hn').
  rewrite Hi', Hn'. auto.
Qed.

(** X8: in [pkg/logger/go-logger.go] too the first [Init] decides the
    instance: whatever calls follow, later [Init]s included, the stored
    logger is the one built from the first configuration, one logger has
    been built, and a further [Init] changes nothing. *)
Theorem PkgLogger_first_Init_decides_the_instance
        (c1 : PkgLogger.Config) (cs : list PkgLogger.Call) w :
  let s' := state_of (PkgLogger.run cs (PkgLogger.Init c1 (PkgLogger.initial w))) in
  PkgLogger.logInstance s' = Some (PkgLogger.NewLogger c1)
  /\ PkgLogger.constructed s' = 1%nat
  /\ (forall c2, PkgLogger.Init c2 s' = s').
Proof.
  cbv zeta.
  destruct (PkgLogger_run_vars cs (PkgLogger.Init c1 (PkgLogger.initial w)) eq_refl)
    as (Hi & Ho & Hn).
  split; [exact Hi|]. split; [exact Hn|].
  intros c2. unfold PkgLogger.Init at 1. rewrite Ho. reflexivity.
Qed.

Lemma PkgLogger_exec_stdout (c : PkgLogger.Call) (s : PkgLogger.State) :
  (PkgLogger.logInstance s = None
   \/ exists config, PkgLogger.logInstance s = Some (PkgLogger.NewLogger config)) ->
  stdout (PkgLogger.world (state_of (PkgLogger.exec c s))) = stdout (PkgLogger.world s)
  /\ (PkgLogger.logInstance (state_of (PkgLogger.exec c s)) = None
      \/ exists config,
          PkgLogger.logInstance (state_of (PkgLogger.exec c s))
          = Some (PkgLogger.NewLogger config)).
Proof.
  intros Hinst.
  assert (Hlog : forall config lvl msg fields,
             stdout (state_of (zap.Log (PkgLogger.zap (PkgLogger.NewLogger config))
                                       lvl msg fields (PkgLogger.world s)))
             = stdout (PkgLogger.world s)).
  { intros config lvl msg fields.
    pose proof (PkgLogger_routing config lvl msg fields (PkgLogger.world s) Stdout) as Hr.
    unfold delivered in Hr. simpl in Hr. rewrite app_nil_r in Hr. exact Hr. }
  destruct c; cbn [PkgLogger.exec];
    unfold PkgLogger.Info, PkgLogger.Error, PkgLogger.Debug, PkgLogger.Warn,
      PkgLogger.Fatal, PkgLogger.Infof, PkgLogger.Errorf, PkgLogger.Debugf,
      PkgLogger.Warnf, PkgLogger.Fatalf, PkgLogger.on_world;
    rewrite ?state_of_map_outcome; cbn [PkgLogger.world PkgLogger.logInstance PkgLogger.with_world];
    try (split; [|exact Hinst];
         destruct Hinst as [Hl|[config Hl]]; rewrite Hl;
         [reflexivity|
          unfold PkgLogger.Logger_Info, PkgLogger.Logger_Debug, PkgLogger.Logger_Warn,
            PkgLogger.Logger_Fatal, PkgLogger.Logger_Error,
            zap.Info, zap.Debug, zap.Warn, zap.Fatal, zap.Error; apply Hlog]).
  - unfold PkgLogger.Init. destruct (PkgLogger.once s); simpl; eauto.
  - unfold PkgLogger.Cleanup.
    destruct Hinst as [Hl|[config Hl]]; rewrite Hl; simpl; [auto|].
    split; [|eauto]. destruct (PkgLogger.world s); reflexivity.
Qed.

(** X9: the facade of [pkg/logger/go-logger.go] never writes to standard
    output: from the start of the process, whatever the calls, standard
    output receives nothing. *)
Theorem PkgLogger_never_writes_to_stdout (cs : list PkgLogger.Call) w :
  stdout (PkgLogger.world (state_of (PkgLogger.run cs (PkgLogger.initial w)))) = stdout w.
Proof.
  assert (Hgen : forall s,
             (PkgLogger.logInstance s = None
              \/ exists config, PkgLogger.logInstance s = Some (PkgLogger.NewLogger config)) ->
             stdout (PkgLogger.world (state_of (PkgLogger.run cs s)))
             = stdout (PkgLogger.world s)).
  { induction cs as [|c cs IH]; intros s Hinst; simpl; [reflexivity|].
    destruct (PkgLogger_exec_stdout c s Hinst) as (Hout & Hinst').
    destruct (PkgLogger.exec c s) as [s1|v s1|code s1]; simpl in *; auto.
    rewrite (IH s1 Hinst'). exact Hout. }
  apply (Hgen (PkgLogger.initial w)). left. reflexivity.
Qed.

End Instance.

(** ** The facade of [part_000] *)
Section Facade000.
Import zapcore Observe.

(** X11: the logger [NewLogger] of [part_000] builds writes an info or a
    warn record to the informational file only, an error record to both
    files, and a fatal record to both files, syncing them, before the
    process exits with status 1; a debug record is dropped; nothing goes to
    standard output, and the fields are the caller's. *)
Theorem Logger000_delivery (config : Logger000.Config) msg tags w :
  let l := Some (Logger000.NewLogger config) in
  let line lvl := Wrote {| Line_enc := NewJSONEncoder zap.NewProductionEncoderConfig;
                           Line_ent := entry_of lvl msg; Line_fields := tags |} in
  let to_info lvl := {| info_file := info_file w ++ [line lvl];
                        error_file := error_file w; stdout := stdout w |} in
  let to_both evs := {| info_file := info_file w ++ evs;
                        error_file := error_file w ++ evs; stdout := stdout w |} in
  Logger000.Logger_Info l msg tags w = Returned (to_info InfoLevel)
  /\ Logger000.Logger_Warn l msg tags w = Returned (to_info WarnLevel)
  /\ Logger000.Logger_Error l msg tags w = Returned (to_both [line ErrorLevel])
  /\ Logger000.Logger_Fatal l msg tags w = Exited 1 (to_both [line FatalLevel; Synced])
  /\ Logger000.Logger_Debug l msg tags w = Returned w.
Proof.
  cbv zeta. repeat split; cbn; rewrite <- ?app_assoc; reflexivity.
Qed.

(** X12: in [part_000] every package function that logs, and [Cleanup],
    panics on the nil logger while no [Init] has run, leaving the state as
    it was; after an [Init], whatever the state before it, [Cleanup] returns
    and syncs the two files, writing no record and leaving standard output
    alone. *)
Theorem Logger000_needs_Init (s : Logger000.State) (config : Logger000.Config) msg tags :
  Logger000.Cleanup (Logger000.Init config s) =
    Returned (Logger000.with_world (Logger000.Init config s)
                {| info_file := info_file (Logger000.world s) ++ [Synced];
                   error_file := error_file (Logger000.world s) ++ [Synced];
                   stdout := stdout (Logger000.world s) |})
  /\ (Logger000.logInstance s = None ->
      Logger000.Info msg tags s = Panicked NilLoggerDereference s
      /\ Logger000.Error msg tags s = Panicked NilLoggerDereference s
      /\ Logger000.Debug msg tags s = Panicked NilLoggerDereference s
      /\ Logger000.Warn msg tags s = Panicked NilLoggerDereference s
      /\ Logger000.Fatal msg tags s = Panicked NilLoggerDereference s
      /\ Logger000.Cleanup s = Panicked NilLoggerDereference s).
Proof.
  split; [reflexivity|].
  intros Hl.
  assert (Hs : Logger000.with_world s (Logger000.world s) = s) by (destruct s; reflexivity).
  unfold Logger000.Info, Logger000.Error, Logger000.Debug, Logger000.Warn,
    Logger000.Fatal, Logger000.Cleanup, Logger000.on_world.
  rewrite Hl. simpl. rewrite Hs. repeat split.
Qed.


End Facade000.

(** ** Package functions and methods *)
Section TwoSurfaces.
Import zapcore Observe Variants.
Context `{GoRuntime}.

(** X14: in [part_001] every formatted package function does exactly what
    the method of the same name does on the stored instance, although
    [Infof], [Debugf], [Warnf] and [Fatalf] are written through the plain
    method with the rendered message and only [Errorf] calls its method;
    the same holds for the plain functions and for [Error], and with a nil
    instance both ways panic alike. *)
Theorem package_functions_agree_with_methods (s : Logger001.State)
        (v : Formatted) (p : Plain.Variant) format args msg err tags :
  package001 v format args s =
    Logger001.on_world s
      (method001 v (Logger001.GetInstance s) format args (Logger001.world s))
  /\ Plain.package001 p msg tags s =
     Logger001.on_world s
       (Plain.method001 p (Logger001.GetInstance s) msg tags (Logger001.world s))
  /\ Logger001.Error msg err tags s =
     Logger001.on_world s
       (Logger001.Logger_Error (Logger001.GetInstance s) msg err tags (Logger001.world s))
  /\ Logger001.Fatal msg tags s =
     Logger001.on_world s
       (Logger001.Logger_Fatal (Logger001.GetInstance s) msg tags (Logger001.world s)).
Proof.
  split; [destruct v; reflexivity|].
  split; [destruct p; reflexivity|].
  split; reflexivity.
Qed.

(** X15: the logger [NewLogger] of [pkg/logger/go-logger.go] builds
    writes an info or a warn record to the informational file only, and a
    fatal record to both files, syncing them, before the process exits with
    status 1; the fields are the caller's and standard output gets
    nothing. *)
Theorem PkgLogger_plain_delivery (config : PkgLogger.Config) msg tags w :
  let l := Some (PkgLogger.NewLogger config) in
  let line lvl := Wrote {| Line_enc := NewJSONEncoder PkgLogger.encoderConfig;
                           Line_ent := entry_of lvl msg; Line_fields := tags |} in
  let to_info lvl := {| info_file := info_file w ++ [line lvl];
                        error_file := error_file w; stdout := stdout w |} in
  PkgLogger.Logger_Info l msg tags w = Returned (to_info InfoLevel)
  /\ PkgLogger.Logger_Warn l msg tags w = Returned (to_info WarnLevel)
  /\ PkgLogger.Logger_Fatal l msg tags w =
     Exited 1 {| info_file := info_file w ++ [line FatalLevel; Synced];
                 error_file := error_file w ++ [line FatalLevel; Synced];
                 stdout := stdout w |}.
Proof.
  cbv zeta. repeat split; cbn; rewrite <- ?app_assoc; reflexivity.
Qed.

End TwoSurfaces.

(** ** Instances of the conditional statements, continued *)

(** X4 at concrete calls: after [Init], [Error] with a nil error panics
    and leaves the state as it was. *)
Lemma calls_end_by_kind_witness :
  let s := Logger001.Init Variants.sample_config (Logger001.initial zapcore.empty_world) in
  match Logger001.exec (H := Variants.sample_runtime)
                       (Logger001.CallError "lost" None []) s with
  | Returned _ => False
  | Exited _ _ => False
  | Panicked v s' => v = NilErrorDereference /\ s' = s
  end.
Proof.
  intros s.
  pose proof (@calls_end_by_kind Variants.sample_runtime
                (Logger001.CallError "lost" None []) s
                (Logger001.NewLogger Variants.sample_config) eq_refl) as Hend.
  destruct (Logger001.exec (H := Variants.sample_runtime)
                           (Logger001.CallError "lost" None []) s).
  - discriminate Hend.
  - destruct Hend as (Hv & Hs & _). auto.
  - destruct Hend as (_ & [(m & t & Hc)|(m & xs & Hc)]); discriminate Hc.
Defined.

(** X6 at a concrete slice: one element in an array of five cells. *)
Lemma Error_append_may_overwrite_callers_array_witness :
  let user := zap.String "user" "u1" in
  let spare := zap.String "spare" "kept by the caller" in
  let tags := {| GoSlice.cells := [user; spare; spare; spare; spare]; GoSlice.len := 1 |} in
  snd (GoSlice.Logger_Error (H := Variants.sample_runtime) None "open failed"
                            (Some (errorString "no such file")) tags zapcore.empty_world)
  = [user; zap.String "error" "no such file"; zap.String "error" "no such file";
     zap.String "stacktrace" "goroutine 1 [running]:"; spare].
Proof.
  intros user spare tags.
  assert (Hwf : GoSlice.well_formed tags) by (apply Nat.leb_le; reflexivity).
  destruct (@Error_append_may_overwrite_callers_array Variants.sample_runtime
              None "open failed"%string (Some (errorString "no such file")) tags
              zapcore.empty_world Hwf)
    as (_ & _ & _ & _ & Hover).
  rewrite (Hover (errorString "no such file") eq_refl).
  - reflexivity.
  - apply Nat.leb_le; reflexivity.
Defined.

(** X12 at the start of the process. *)
Lemma Logger000_needs_Init_witness :
  Logger000.Cleanup (Logger000.initial zapcore.empty_world)
  = Panicked NilLoggerDereference (Logger000.initial zapcore.empty_world)
  /\ Logger000.Warn "slow" [] (Logger000.initial zapcore.empty_world)
     = Panicked NilLoggerDereference (Logger000.initial zapcore.empty_world).
Proof.
  destruct (proj2 (Logger000_needs_Init
                     (Logger000.initial zapcore.empty_world)
                     {| Logger000.InfoLogPath := "info.log";
                        Logger000.ErrorLogPath := "error.log" |}
                     "slow" []) eq_refl)
    as (_ & _ & _ & Hwarn & _ & Hclean).
  split; [exact Hclean|exact Hwarn].
Defined.
